(** * RMAN fraud detector: a shallow embedding of [main.py]

    The service scores card transactions with four independent detectors,
    gates flagged transactions behind a PIN challenge and blacklists the
    recipient when the challenge fails.  This file embeds the handlers of
    [main.py] as functions over an explicit world (the three MongoDB
    collections, the module-level [last_known_location] dictionary and the
    SMS output) and proves the properties the specification states about
    them.

    Conventions of the embedding:
    - Python [float] and [numpy.float64] are IEEE binary64: Rocq's primitive
      [float], with the same rounding.
    - [str] is [string]; a character is a code point below 256.
    - a [dict] with string keys is a [gmap string _], a [set] a [gset].
    - a MongoDB collection is the list of its documents in insertion order.
    - library functions whose code is not part of the repository
      ([datetime.strptime], [hashlib.sha256], [geopy.distance.geodesic]) are
      variables of the sections that use them. *)

Set Warnings "-inexact-float".
From Stdlib Require Import Floats ZArith Ascii String Sorted.
From stdpp Require Import base gmap strings list.

Local Open Scope string_scope.
Local Open Scope nat_scope.
Local Open Scope list_scope.

(** ** Python string operations used by the handlers *)

Module Py.

(** [str.isspace] on one character, for code points below 256. *)
Definition isspace (c : ascii) : bool :=
  let n := nat_of_ascii c in
  ((9 <=? n) && (n <=? 13)) || ((28 <=? n) && (n <=? 32))
  || (n =? 133) || (n =? 160).

(** [str.isdigit] on one character, for code points below 256: the ten
    decimal digits and the superscripts two, three and one. *)
Definition isdigit_char (c : ascii) : bool :=
  let n := nat_of_ascii c in
  ((48 <=? n) && (n <=? 57)) || (n =? 178) || (n =? 179) || (n =? 185).

Fixpoint all_chars (p : ascii -> bool) (s : string) : bool :=
  match s with
  | EmptyString => true
  | String c s' => p c && all_chars p s'
  end.

(** [s.isdigit()]: false on the empty string. *)
Definition isdigit (s : string) : bool :=
  match s with
  | EmptyString => false
  | _ => all_chars isdigit_char s
  end.

Fixpoint lstrip (s : string) : string :=
  match s with
  | String c s' => if isspace c then lstrip s' else s
  | EmptyString => EmptyString
  end.

(** Right strip: a character is kept when something non-blank follows it
    or it is not blank itself. *)
Fixpoint rstrip (s : string) : string :=
  match s with
  | EmptyString => EmptyString
  | String c s' =>
      match rstrip s' with
      | EmptyString => if isspace c then EmptyString else String c EmptyString
      | r => String c r
      end
  end.

(** [s.strip()] *)
Definition strip (s : string) : string := rstrip (lstrip s).

(** [s.startswith(p)] *)
Definition startswith (p s : string) : bool := String.prefix p s.

(** [s.split(sep)] for a non-empty separator, scanning left to right.
    [skip] counts the characters of a separator occurrence still to be
    dropped, [cur] is the piece being read. *)
Fixpoint split_go (sep : string) (skip : nat) (cur s : string) : list string :=
  match s with
  | EmptyString => [cur]
  | String c s' =>
      match skip with
      | S k => split_go sep k cur s'
      | O =>
          if String.prefix sep s
          then cur :: split_go sep (String.length sep - 1) EmptyString s'
          else split_go sep 0 (String.append cur (String c EmptyString)) s'
      end
  end.

Definition split (sep s : string) : list string := split_go sep 0 EmptyString s.

(** [l[-n:]] on a list: the last [n] elements, and the whole list when
    [n] is [0] (the slice [l[-0:]] is [l[0:]]). *)
Definition last_slice {A} (n : nat) (l : list A) : list A :=
  match n with
  | O => l
  | _ => drop (length l - n) l
  end.

End Py.

(** ** numpy reductions on float64 *)

Module Np.

Local Open Scope float_scope.

(** [np.add.reduce] on a one-dimensional float64 array of fewer than eight
    elements: a left-to-right accumulation from zero. *)
Definition sum (a : list float) : float := fold_left PrimFloat.add a 0.

Definition count (a : list float) : float :=
  PrimFloat.of_uint63 (Uint63.of_Z (Z.of_nat (length a))).

(** [np.mean]: the sum divided by the number of elements. *)
Definition mean (a : list float) : float := sum a / count a.

(** [np.std] with [ddof = 0]: the square root of the mean of the squared
    deviations from [np.mean]. *)
Definition std (a : list float) : float :=
  let arrmean := mean a in
  let x := (fun v => v - arrmean) <$> a in
  let x := (fun d => d * d) <$> x in
  PrimFloat.sqrt (sum x / count a).

End Np.

(** ** Request bodies ([pydantic] models) *)

Module Transaction.
Record t := mk {
  transaction_id : string;
  timestamp : string;
  amount : float;
  location : string;
  card_type : string;
  currency : string;
  recipient_account : string }.
End Transaction.

Module User.
Record t := mk {
  name : string;
  account : string;
  phone : string;
  password : string;
  pin : string }.
End User.

Module LoginData.
Record t := mk { account : string; password : string }.
End LoginData.

Module PinVerification.
Record t := mk {
  account : string;
  pin : string;
  transaction : Transaction.t }.
End PinVerification.

(** The part of a [fastapi.Request] the handlers read: the header list
    (names in lower case, as the server hands them over) and the address of
    the socket peer, [request.client.host], of a client that has one. *)
Module Request.
Record t := mk {
  headers : list (string * string);
  client_host : string }.

(** [request.headers.get(name)]: the value of the first header so named. *)
Fixpoint get (name : string) (hs : list (string * string)) : option string :=
  match hs with
  | [] => None
  | (k, v) :: hs' => if bool_decide (k = name) then Some v else get name hs'
  end.
End Request.

(** ** Stored documents *)

(** [datetime.datetime], naive; compared field by field. *)
Module Datetime.
Record t := mk {
  year : nat; month : nat; day : nat;
  hour : nat; minute : nat; second : nat; microsecond : nat }.

Definition fields (d : t) : list nat :=
  [year d; month d; day d; hour d; minute d; second d; microsecond d].

Fixpoint lex_leb (a b : list nat) : bool :=
  match a, b with
  | x :: a', y :: b' => (x <? y) || ((x =? y) && lex_leb a' b')
  | [], _ => true
  | _ :: _, [] => false
  end.

Definition leb (a b : t) : bool := lex_leb (fields a) (fields b).
End Datetime.

(** A document of the transaction collection, as [check_fraud] writes it;
    [verified_at] is the field [verify_pin] adds. *)
Module TxnDoc.
Record t := mk {
  transaction_id : string;
  timestamp : Datetime.t;
  amount : float;
  location : string;
  card_type : string;
  currency : string;
  recipient_account : string;
  client_ip : string;
  is_fraud : bool;
  fraud_reason : list string;
  status : string;
  pin_verified : bool;
  created_at : Datetime.t;
  verified_at : option Datetime.t }.
End TxnDoc.

(** A document of the [blacklist] collection. *)
Module BlacklistDoc.
Record t := mk {
  type : string;
  value : string;
  reason : list string;
  timestamp : Datetime.t;
  blocked_by : string }.
End BlacklistDoc.

(** A document of the [users] collection. *)
Module UserDoc.
Record t := mk {
  name : string;
  account : string;
  phone : string;
  password : string;
  pin : string;
  created_at : Datetime.t;
  is_active : bool }.
End UserDoc.

(** What [send_sms_notification] prints: the phone number and the text, the
    text kept as its template and the values formatted into it. *)
Module Sms.
Inductive text :=
| Welcome (account : string)
| Blocked (recipient_account : string)
| Approved (transaction_id currency : string) (amount : float)
| Suspicious (currency : string) (amount : float) (recipient_account : string).

Record t := mk { phone : string; message : text }.
End Sms.

(** ** The world the handlers run in *)

Record World := mkWorld {
  users_collection : list UserDoc.t;
  collection : list TxnDoc.t;
  blacklist_collection : list BlacklistDoc.t;
  last_known_location : gmap string string;
  sms_sent : list Sms.t }.

Definition set_users (f : list UserDoc.t -> list UserDoc.t) (w : World) : World :=
  mkWorld (f (users_collection w)) (collection w) (blacklist_collection w)
          (last_known_location w) (sms_sent w).

Definition set_collection (f : list TxnDoc.t -> list TxnDoc.t) (w : World) : World :=
  mkWorld (users_collection w) (f (collection w)) (blacklist_collection w)
          (last_known_location w) (sms_sent w).

Definition set_blacklist (f : list BlacklistDoc.t -> list BlacklistDoc.t) (w : World) : World :=
  mkWorld (users_collection w) (collection w) (f (blacklist_collection w))
          (last_known_location w) (sms_sent w).

Definition set_last_known_location (f : gmap string string -> gmap string string)
    (w : World) : World :=
  mkWorld (users_collection w) (collection w) (blacklist_collection w)
          (f (last_known_location w)) (sms_sent w).

Definition set_sms_sent (f : list Sms.t -> list Sms.t) (w : World) : World :=
  mkWorld (users_collection w) (collection w) (blacklist_collection w)
          (last_known_location w) (f (sms_sent w)).

(** The calls the handlers make on the three collections. *)
Inductive store_call :=
| UsersFindOne | UsersInsertOne
| BlacklistFindOne | BlacklistInsertOne | BlacklistFind
| TxnFind | TxnInsertOne | TxnUpdateOne.

(** What a handler does not control: the value of [datetime.now()] and, for
    each call on the store, whether the driver raises instead of answering. *)
Record Env := mkEnv {
  now : Datetime.t;
  store_down : store_call -> bool }.

(** The store answers every call. *)
Definition reliable (e : Env) : Prop := ∀ c, store_down e c = false.

(** An environment with a working store, and the world at start-up. *)
Definition calm (t : Datetime.t) : Env := mkEnv t (λ _, false).
Definition empty_world : World := mkWorld [] [] [] ∅ [].

Inductive exn :=
| ValueError     (* [datetime.strptime] on a string that does not match *)
| PyMongoError.  (* any error of the database driver *)

(** ** Computations that read and write the world and may raise *)

Inductive result (A : Type) :=
| Ok (a : A)
| Raise (e : exn).
Arguments Ok {A} a.
Arguments Raise {A} e.

Definition M (A : Type) : Type := World → result A * World.

#[export] Instance M_ret : MRet M := λ A a w, (Ok a, w).
#[export] Instance M_bind : MBind M := λ A B f m w,
  match m w with
  | (Ok a, w') => f a w'
  | (Raise e, w') => (Raise e, w')
  end.

Definition raise {A} (e : exn) : M A := λ w, (Raise e, w).
Definition gets {A} (f : World → A) : M A := λ w, (Ok (f w), w).
Definition modify (f : World → World) : M unit := λ w, (Ok (), f w).

(** A call on the store: the driver's error, or the operation. *)
Definition store {A} (e : Env) (c : store_call) (op : M A) : M A :=
  λ w, if store_down e c then (Raise PyMongoError, w) else op w.

(** ** MongoDB operations on a collection *)

Module Mongo.

(** [find_one(filter)]: the first document that matches. *)
Definition find_one {A} (p : A → bool) (docs : list A) : option A :=
  List.find p docs.

(** [insert_one(doc)] *)
Definition insert_one {A} (doc : A) (docs : list A) : list A := docs ++ [doc].

(** [update_one(filter, {"$set": ...})]: the first document that matches
    is rewritten; no document is added when none matches. *)
Fixpoint update_one {A} (p : A → bool) (f : A → A) (docs : list A) : list A :=
  match docs with
  | [] => []
  | d :: docs' => if p d then f d :: docs' else d :: update_one p f docs'
  end.

(** [sort(key, 1)]: insertion of each document after the documents whose
    key is not larger, so documents with equal keys keep their order. *)
Fixpoint insert_sorted {A} (le : A → A → bool) (d : A) (sorted : list A) : list A :=
  match sorted with
  | [] => [d]
  | x :: sorted' =>
      if le x d then x :: insert_sorted le d sorted' else d :: sorted
  end.

Definition sort {A} (le : A → A → bool) (docs : list A) : list A :=
  fold_left (λ acc d, insert_sorted le d acc) docs [].

End Mongo.

(** ** Module-level constants of [main.py] *)

Definition location_lookup : gmap string (float * float) :=
  list_to_map
    [ ("Chennai", (13.0827, 80.2707)%float);
      ("Mumbai", (19.0760, 72.8777)%float);
      ("Delhi", (28.6139, 77.2090)%float);
      ("Bangalore", (12.9716, 77.5946)%float) ].

Definition BLACKLISTED_IPS : gset string :=
  {[ "203.0.113.5"; "198.51.100.10"; "45.33.32.156" ]}.

(** ** Responses *)

(** The extra key a [{"success": ...}] dictionary may carry. *)
Inductive payload :=
| NoPayload
| UserInfo (name account phone : string)
| UserView (name account phone : string) (created_at : Datetime.t) (is_active : bool)
| Transactions (txns : list TxnDoc.t).

(** What a caller receives.  [ServerError] is an exception that leaves the
    handler: the framework answers it with status 500. *)
Inductive response :=
| Envelope (success : bool) (message : option string) (data : payload)
| Verdict (fraud : bool) (reasons : list string)
| TransactionList (txns : list TxnDoc.t)
| BlacklistList (entries : list BlacklistDoc.t)
| Health (status : string) (timestamp : Datetime.t)
| ServerError (e : exn).

Definition handler : Type := World → response * World.

(** [try: body except Exception: return on_error] *)
Definition try_except (body : M response) (on_error : response) : handler :=
  λ w, match body w with
       | (Ok r, w') => (r, w')
       | (Raise _, w') => (on_error, w')
       end.

(** A handler body with no [try]: an exception reaches the framework. *)
Definition no_try (body : M response) : handler :=
  λ w, match body w with
       | (Ok r, w') => (r, w')
       | (Raise x, w') => (ServerError x, w')
       end.

Definition internal_server_error : response :=
  Envelope false (Some "Internal server error") NoPayload.

Definition send_sms_notification (phone : string) (message : Sms.text) : M bool :=
  modify (set_sms_sent (λ out, out ++ [Sms.mk phone message])) ;; mret true.

(** ** The detectors *)

(** [detect_behavioral_anomaly(past_txns, current_amount, window_size, z_thresh)] *)
Definition detect_behavioral_anomaly (past_txns : list TxnDoc.t)
    (current_amount : float) (window_size : nat) (z_thresh : float) : bool :=
  let amounts := Py.last_slice window_size (TxnDoc.amount <$> past_txns) in
  if length amounts <? 2 then false
  else
    let mean := Np.mean amounts in
    let std := Np.std amounts in
    let z_score :=
      if negb (PrimFloat.eqb std 0)
      then PrimFloat.abs (PrimFloat.div (PrimFloat.sub current_amount mean) std)
      else 0%float in
    PrimFloat.ltb z_thresh z_score.

(** [get_client_ip(request)] *)
Definition get_client_ip (request : Request.t) : string :=
  match Request.get "x-forwarded-for" (Request.headers request) with
  | Some forwarded =>
      if bool_decide (forwarded = EmptyString) then Request.client_host request
      else Py.strip (default EmptyString (head (Py.split "," forwarded)))
  | None => Request.client_host request
  end.

(** One detector's outcome folded into [reasons] and [is_fraud]. *)
Definition flag (hit : bool) (reason : string) (acc : list string * bool)
    : list string * bool :=
  if hit then (acc.1 ++ [reason], true) else acc.

Definition user_by_account (account : string) (u : UserDoc.t) : bool :=
  bool_decide (UserDoc.account u = account).

Definition blacklisted_account (value : string) (b : BlacklistDoc.t) : bool :=
  bool_decide (BlacklistDoc.type b = "account") && bool_decide (BlacklistDoc.value b = value).

Definition txn_by_id (transaction_id : string) (d : TxnDoc.t) : bool :=
  bool_decide (TxnDoc.transaction_id d = transaction_id).

Definition txn_by_card (card_type : string) (d : TxnDoc.t) : bool :=
  bool_decide (TxnDoc.card_type d = card_type).

(** The [$set] of [verify_pin]. *)
Definition approve (at_ : Datetime.t) (d : TxnDoc.t) : TxnDoc.t :=
  TxnDoc.mk (TxnDoc.transaction_id d) (TxnDoc.timestamp d) (TxnDoc.amount d)
    (TxnDoc.location d) (TxnDoc.card_type d) (TxnDoc.currency d)
    (TxnDoc.recipient_account d) (TxnDoc.client_ip d) (TxnDoc.is_fraud d)
    (TxnDoc.fraud_reason d) "approved" true (TxnDoc.created_at d) (Some at_).

Definition invalid_pin_reason : string := "Invalid PIN verification - potential fraud".

(** ** Stand-ins for the library functions, used to run the handlers on
    concrete requests *)

Module Demo.

Definition digit (c : ascii) : option nat :=
  let n := nat_of_ascii c in
  if (48 <=? n) && (n <=? 57) then Some (n - 48) else None.

Fixpoint number (acc : nat) (cs : list ascii) : option nat :=
  match cs with
  | [] => Some acc
  | c :: cs' => d ← digit c; number (10 * acc + d) cs'
  end.

Definition leap (y : nat) : bool :=
  ((y mod 4 =? 0) && negb (y mod 100 =? 0)) || (y mod 400 =? 0).

Definition days_in_month (y m : nat) : nat :=
  match m with
  | 2 => if leap y then 29 else 28
  | 4 | 6 | 9 | 11 => 30
  | _ => 31
  end.

(** Accepts exactly the zero-padded form ["2025-08-07 16:55:00"] that the
    comment on [Transaction.timestamp] documents, with fields in range. *)
Definition strptime (s : string) : option Datetime.t :=
  match list_ascii_of_string s with
  | [y1; y2; y3; y4; "-"; m1; m2; "-"; d1; d2; " ";
     h1; h2; ":"; n1; n2; ":"; s1; s2]%char =>
      y ← number 0 [y1; y2; y3; y4];
      m ← number 0 [m1; m2];
      d ← number 0 [d1; d2];
      h ← number 0 [h1; h2];
      n ← number 0 [n1; n2];
      sec ← number 0 [s1; s2];
      if (1 <=? y) && (1 <=? m) && (m <=? 12) && (1 <=? d) && (d <=? days_in_month y m)
         && (h <=? 23) && (n <=? 59) && (sec <=? 59)
      then Some (Datetime.mk y m d h n sec 0)
      else None
  | _ => None
  end.

(** Not a hash: the text itself, tagged. *)
Definition digest (s : string) : string := "sha256:" +:+ s.

(** Distance on a flat map, 111 km to the degree. *)
Definition flat_km (a b : float * float) : float :=
  let dlat := PrimFloat.sub a.1 b.1 in
  let dlon := PrimFloat.sub a.2 b.2 in
  PrimFloat.mul 111
    (PrimFloat.sqrt (PrimFloat.add (PrimFloat.mul dlat dlat) (PrimFloat.mul dlon dlon))).

End Demo.

(** ** The routes of the service *)

Inductive api_call :=
| Signup (user : User.t)
| Login (login_data : LoginData.t)
| VerifyPin (pin_data : PinVerification.t)
| CheckFraud (txn : Transaction.t) (request : Request.t)
| GetAllTransactions
| GetBlacklist
| GetUserInfo (account : string)
| GetUserTransactions (account : string)
| HealthCheck.

(** ** Concrete accounts, requests and histories for the examples *)

Module Scenario.

Definition t0 : Datetime.t := Datetime.mk 2025 8 7 17 0 0 0.

Definition alice : UserDoc.t :=
  UserDoc.mk "Alice" "alice" "+911111111111" (Demo.digest "wonderland")
    (Demo.digest "4321") t0 true.

Definition bob : UserDoc.t :=
  UserDoc.mk "Bob" "bob" "+912222222222" (Demo.digest "builder")
    (Demo.digest "1234") t0 true.

(** Two accounts, nothing scored yet. *)
Definition world : World := mkWorld [alice; bob] [] [] ∅ [].

(** A payment of [amount] on the card "visa" to the account "acct-9". *)
Definition payment (amount : float) : Transaction.t :=
  Transaction.mk "t-100" "2025-08-07 16:55:00" amount "Chennai" "visa" "INR" "acct-9".

Definition undated (amount : float) : Transaction.t :=
  Transaction.mk "t-100" "yesterday" amount "Chennai" "visa" "INR" "acct-9".

(** A request with no [x-forwarded-for] header. *)
Definition direct : Request.t := Request.mk [] "10.0.0.7".

(** An approved earlier payment of [amount] on the card "visa". *)
Definition paid (transaction_id : string) (amount : float) : TxnDoc.t :=
  TxnDoc.mk transaction_id (Datetime.mk 2025 8 1 9 0 0 0) amount "Chennai" "visa" "INR"
    "acct-9" "10.0.0.7" false [] "approved" true t0 None.

Definition three_equal : list TxnDoc.t :=
  [paid "t-1" 7.1; paid "t-2" 7.1; paid "t-3" 7.1].

Definition five_equal : list TxnDoc.t :=
  [paid "t-1" 100; paid "t-2" 100; paid "t-3" 100; paid "t-4" 100; paid "t-5" 100].

(** A full window of five equal small payments. *)
Definition five_small : list TxnDoc.t :=
  [paid "t-1" 0.11; paid "t-2" 0.11; paid "t-3" 0.11; paid "t-4" 0.11; paid "t-5" 0.11].

Definition world_five_small : World := mkWorld [alice; bob] five_small [] ∅ [].

(** The PIN challenge for [payment 7.2], submitted by [account]. *)
Definition challenge (account pin : string) : PinVerification.t :=
  PinVerification.mk account pin (payment 7.2).

(** [payment 7.2] as [check_fraud] stores it when it is flagged. *)
Definition flagged : TxnDoc.t :=
  TxnDoc.mk "t-100" (Datetime.mk 2025 8 7 16 55 0 0) 7.2 "Chennai" "visa" "INR"
    "acct-9" "10.0.0.7" true ["Abnormal Amount (Behavioral)"] "pending" false t0 None.

Definition world_flagged : World := mkWorld [alice; bob] [flagged] [] ∅ [].

(** Three equal payments in the history. *)
Definition world_three_equal : World := mkWorld [alice; bob] three_equal [] ∅ [].

(** A store that raises on every call. *)
Definition store_off : Env := mkEnv t0 (λ _, true).

(** Two failed challenges for the same recipient, by different accounts. *)
Definition two_failures : list (Env * api_call) :=
  [ (calm t0, VerifyPin (challenge "alice" "0000"));
    (calm t0, VerifyPin (challenge "bob" "9999")) ].

(** A request through a denylisted address, with Bob's bearer credential. *)
Definition spoofed : Request.t :=
  Request.mk
    [("x-forwarded-for", "203.0.113.5"); ("authorization", "Bearer bob")] "10.0.0.7".

(** The store refuses to insert a transaction and answers every other call. *)
Definition insert_off : Env :=
  mkEnv t0 (λ c, match c with TxnInsertOne => true | _ => false end).

(** The store refuses to look a user up and answers every other call. *)
Definition users_off : Env :=
  mkEnv t0 (λ c, match c with UsersFindOne => true | _ => false end).

(** A signup for an account that is not stored. *)
Definition carol : User.t := User.mk "Carol" "carol" "+913333333333" "s3cret" "2468".

(** A payment on another card. *)
Definition other_card : Transaction.t :=
  Transaction.mk "t-200" "2025-08-07 18:00:00" 50 "Delhi" "amex" "INR" "acct-5".

(** Calls of every writing route, with and without a working store. *)
Definition busy_day : list (Env * api_call) :=
  [ (calm t0, Signup carol);
    (calm t0, CheckFraud (payment 7.2) direct);
    (calm t0, CheckFraud (payment 7.2) spoofed);
    (calm t0, VerifyPin (challenge "bob" "9999"));
    (store_off, VerifyPin (challenge "bob" "1234"));
    (calm t0, VerifyPin (challenge "bob" "1234")) ].

(** Calls of routes that only read. *)
Definition reads : list (Env * api_call) :=
  [ (calm t0, Login (LoginData.mk "bob" "builder"));
    (store_off, GetBlacklist);
    (calm t0, GetUserTransactions "alice");
    (calm t0, HealthCheck) ].

End Scenario.

(** ** The handlers *)

Section Service.

(** [hashlib.sha256(s.encode()).hexdigest()] *)
Variable sha256_hexdigest : string → string.

(** [datetime.strptime(s, "%Y-%m-%d %H:%M:%S")]; [None] stands for the
    [ValueError] raised when [s] does not match the format. *)
Variable strptime : string → option Datetime.t.

(** [geopy.distance.geodesic(a, b).km] *)
Variable geodesic_km : float * float → float * float → float.

Definition hash_password (password : string) : string := sha256_hexdigest password.

Definition verify_password (password hashed_password : string) : bool :=
  bool_decide (sha256_hexdigest password = hashed_password).

(** [detect_geo_drift(card_type, current_location, max_km)], reading the
    module-level dictionary [last_known_location] passed as [known]. *)
Definition detect_geo_drift (known : gmap string string)
    (card_type current_location : string) (max_km : float) : bool :=
  match location_lookup !! current_location with
  | None => false
  | Some current_coords =>
      match known !! card_type with
      | None => false
      | Some last_location =>
          if bool_decide (last_location = EmptyString) then false
          else
            match location_lookup !! last_location with
            | None => false
            | Some last_coords =>
                let distance := geodesic_km last_coords current_coords in
                PrimFloat.ltb max_km distance
            end
      end
  end.

(** [POST /signup] *)
Definition signup (e : Env) (user : User.t) : handler :=
  try_except
    (existing_user ← store e UsersFindOne
       (gets (λ w, Mongo.find_one (user_by_account (User.account user))
                     (users_collection w)));
     match existing_user with
     | Some _ => mret (Envelope false (Some "Account already exists") NoPayload)
     | None =>
         if negb (Py.isdigit (User.pin user))
            || negb (String.length (User.pin user) =? 4)
         then mret (Envelope false (Some "PIN must be exactly 4 digits") NoPayload)
         else
           let hashed_password := hash_password (User.password user) in
           let hashed_pin := hash_password (User.pin user) in
           let user_doc :=
             UserDoc.mk (User.name user) (User.account user) (User.phone user)
               hashed_password hashed_pin (now e) true in
           (* [insert_one] returns the new document's id, never a false value *)
           store e UsersInsertOne
             (modify (set_users (Mongo.insert_one user_doc))) ;;
           send_sms_notification (User.phone user) (Sms.Welcome (User.account user)) ;;
           mret (Envelope true (Some "Account created successfully") NoPayload)
     end)
    internal_server_error.

(** [POST /login] *)
Definition login (e : Env) (login_data : LoginData.t) : handler :=
  try_except
    (user ← store e UsersFindOne
       (gets (λ w, Mongo.find_one (user_by_account (LoginData.account login_data))
                     (users_collection w)));
     match user with
     | None => mret (Envelope false (Some "Account not found") NoPayload)
     | Some user =>
         if negb (verify_password (LoginData.password login_data) (UserDoc.password user))
         then mret (Envelope false (Some "Invalid password") NoPayload)
         else if negb (UserDoc.is_active user)
         then mret (Envelope false (Some "Account is deactivated") NoPayload)
         else
           let user_info :=
             UserInfo (UserDoc.name user) (UserDoc.account user) (UserDoc.phone user) in
           mret (Envelope true (Some "Login successful") user_info)
     end)
    internal_server_error.

(** [POST /verify_pin] *)
Definition verify_pin (e : Env) (pin_data : PinVerification.t) : handler :=
  let txn := PinVerification.transaction pin_data in
  try_except
    (user ← store e UsersFindOne
       (gets (λ w, Mongo.find_one (user_by_account (PinVerification.account pin_data))
                     (users_collection w)));
     match user with
     | None => mret (Envelope false (Some "User not found") NoPayload)
     | Some user =>
         if negb (verify_password (PinVerification.pin pin_data) (UserDoc.pin user))
         then
           let recipient_account := Transaction.recipient_account txn in
           listed ← store e BlacklistFindOne
             (gets (λ w, Mongo.find_one (blacklisted_account recipient_account)
                           (blacklist_collection w)));
           match listed with
           | Some _ => mret ()
           | None =>
               store e BlacklistInsertOne
                 (modify (set_blacklist (Mongo.insert_one
                    (BlacklistDoc.mk "account" recipient_account [invalid_pin_reason]
                       (now e) (PinVerification.account pin_data)))))
           end ;;
           send_sms_notification (UserDoc.phone user) (Sms.Blocked recipient_account) ;;
           mret (Envelope false
                   (Some "Invalid PIN. Transaction blocked and recipient blacklisted.")
                   NoPayload)
         else
           store e TxnUpdateOne
             (modify (set_collection
                (Mongo.update_one (txn_by_id (Transaction.transaction_id txn))
                   (approve (now e))))) ;;
           send_sms_notification (UserDoc.phone user)
             (Sms.Approved (Transaction.transaction_id txn) (Transaction.currency txn)
                (Transaction.amount txn)) ;;
           mret (Envelope true (Some "PIN verified successfully. Transaction approved.")
                   NoPayload)
     end)
    internal_server_error.

(** The document [check_fraud] stores for a scored transaction. *)
Definition transaction_doc (e : Env) (txn : Transaction.t) (parsed : Datetime.t)
    (client_ip : string) (is_fraud : bool) (reasons : list string) : TxnDoc.t :=
  TxnDoc.mk (Transaction.transaction_id txn) parsed (Transaction.amount txn)
    (Transaction.location txn) (Transaction.card_type txn) (Transaction.currency txn)
    (Transaction.recipient_account txn) client_ip is_fraud reasons
    (if is_fraud then "pending" else "approved")
    (if is_fraud then false else true)
    (now e) None.

(** [collection.find({"card_type": c}).sort("timestamp", 1)] *)
Definition past_transactions (card_type : string) (docs : list TxnDoc.t) : list TxnDoc.t :=
  Mongo.sort (λ a b, Datetime.leb (TxnDoc.timestamp a) (TxnDoc.timestamp b))
    (List.filter (txn_by_card card_type) docs).

(** The four signals of [check_fraud], each read before anything is written. *)
Definition ip_signal (request : Request.t) : bool :=
  bool_decide (get_client_ip request ∈ BLACKLISTED_IPS).

Definition recipient_signal (txn : Transaction.t) (w : World) : bool :=
  bool_decide (is_Some (Mongo.find_one
    (blacklisted_account (Transaction.recipient_account txn)) (blacklist_collection w))).

Definition behavioral_signal (txn : Transaction.t) (w : World) : bool :=
  detect_behavioral_anomaly
    (past_transactions (Transaction.card_type txn) (collection w))
    (Transaction.amount txn) 5 2.5%float.

Definition geo_signal (txn : Transaction.t) (w : World) : bool :=
  detect_geo_drift (last_known_location w)
    (Transaction.card_type txn) (Transaction.location txn) 500%float.

(** The alert of [check_fraud]: sent when the [authorization] header is a
    bearer credential that names a stored account. *)
Definition alert_owner (e : Env) (txn : Transaction.t) (request : Request.t) : M unit :=
  let auth_header := default EmptyString (Request.get "authorization" (Request.headers request)) in
  if Py.startswith "Bearer " auth_header then
    let account := default EmptyString (Py.split "Bearer " auth_header !! 1) in
    user ← store e UsersFindOne
      (gets (λ w, Mongo.find_one (user_by_account account) (users_collection w)));
    match user with
    | Some user =>
        send_sms_notification (UserDoc.phone user)
          (Sms.Suspicious (Transaction.currency txn) (Transaction.amount txn)
             (Transaction.recipient_account txn)) ;;
        mret ()
    | None => mret ()
    end
  else mret ().

(** [POST /check_fraud] *)
Definition check_fraud (e : Env) (txn : Transaction.t) (request : Request.t) : handler :=
  no_try
    (parsed ← match strptime (Transaction.timestamp txn) with
              | Some t => mret t
              | None => raise ValueError
              end;
     let acc : list string * bool := ([], false) in
     let client_ip := get_client_ip request in
     let acc := flag (bool_decide (client_ip ∈ BLACKLISTED_IPS))
                  ("Blacklisted IP Address: " +:+ client_ip) acc in
     listed ← store e BlacklistFindOne
       (gets (λ w, Mongo.find_one
                     (blacklisted_account (Transaction.recipient_account txn))
                     (blacklist_collection w)));
     let acc := flag (bool_decide (is_Some listed))
                  ("Blacklisted Recipient Account: " +:+ Transaction.recipient_account txn)
                  acc in
     past_txns ← store e TxnFind
       (gets (λ w, past_transactions (Transaction.card_type txn) (collection w)));
     let acc := flag (detect_behavioral_anomaly past_txns (Transaction.amount txn)
                        5 2.5%float)
                  "Abnormal Amount (Behavioral)" acc in
     drift ← gets (λ w, detect_geo_drift (last_known_location w)
                          (Transaction.card_type txn) (Transaction.location txn)
                          500%float);
     let acc := flag drift "Geo Drift Detected" acc in
     let reasons := acc.1 in
     let is_fraud := acc.2 in
     (if negb is_fraud
      then modify (set_last_known_location
                     (<[Transaction.card_type txn := Transaction.location txn]>))
      else mret ()) ;;
     store e TxnInsertOne
       (modify (set_collection
          (Mongo.insert_one (transaction_doc e txn parsed client_ip is_fraud reasons)))) ;;
     (if is_fraud then alert_owner e txn request else mret ()) ;;
     mret (Verdict is_fraud reasons)).

(** [GET /transactions] *)
Definition get_all_transactions (e : Env) : handler :=
  no_try (txns ← store e TxnFind (gets collection); mret (TransactionList txns)).

(** [GET /blacklist] *)
Definition get_blacklist (e : Env) : handler :=
  no_try (entries ← store e BlacklistFind (gets blacklist_collection);
          mret (BlacklistList entries)).

(** [GET /user/{account}] *)
Definition get_user_info (e : Env) (account : string) : handler :=
  try_except
    (user ← store e UsersFindOne
       (gets (λ w, Mongo.find_one (user_by_account account) (users_collection w)));
     match user with
     | Some u =>
         mret (Envelope true None
                 (UserView (UserDoc.name u) (UserDoc.account u) (UserDoc.phone u)
                    (UserDoc.created_at u) (UserDoc.is_active u)))
     | None => mret (Envelope false (Some "User not found") NoPayload)
     end)
    internal_server_error.

(** [GET /user/{account}/transactions] *)
Definition get_user_transactions (e : Env) (account : string) : handler :=
  try_except
    (user ← store e UsersFindOne
       (gets (λ w, Mongo.find_one (user_by_account account) (users_collection w)));
     match user with
     | None => mret (Envelope false (Some "User not found") NoPayload)
     | Some _ =>
         txns ← store e TxnFind
           (gets (λ w, take 50
                    (Mongo.sort
                       (λ a b, Datetime.leb (TxnDoc.timestamp b) (TxnDoc.timestamp a))
                       (collection w))));
         mret (Envelope true None (Transactions txns))
     end)
    internal_server_error.

(** [GET /health] *)
Definition health_check (e : Env) : handler :=
  λ w, (Health "healthy" (now e), w).

(** ** The service as a transition system *)

Definition handle (e : Env) (c : api_call) : handler :=
  match c with
  | Signup user => signup e user
  | Login login_data => login e login_data
  | VerifyPin pin_data => verify_pin e pin_data
  | CheckFraud txn request => check_fraud e txn request
  | GetAllTransactions => get_all_transactions e
  | GetBlacklist => get_blacklist e
  | GetUserInfo account => get_user_info e account
  | GetUserTransactions account => get_user_transactions e account
  | HealthCheck => health_check e
  end.

(** A sequence of calls, each with its own environment, run in order. *)
Fixpoint run (calls : list (Env * api_call)) (w : World) : World :=
  match calls with
  | [] => w
  | (e, c) :: calls' => run calls' (handle e c w).2
  end.


(** ** Notions the properties are stated with *)

(** [reasons] and [is_fraud] after the four detectors of [check_fraud]. *)
Definition scored (txn : Transaction.t) (request : Request.t) (w : World)
    : list string * bool :=
  flag (geo_signal txn w) "Geo Drift Detected"
    (flag (behavioral_signal txn w) "Abnormal Amount (Behavioral)"
       (flag (recipient_signal txn w)
          ("Blacklisted Recipient Account: " +:+ Transaction.recipient_account txn)
          (flag (ip_signal request)
             ("Blacklisted IP Address: " +:+ get_client_ip request)
             ([], false)))).

(** The originating address as the specification words it: the first
    comma-separated entry of [x-forwarded-for] when the header is present,
    the socket peer otherwise. *)
Definition first_forwarded_entry (request : Request.t) : string :=
  match Request.get "x-forwarded-for" (Request.headers request) with
  | Some forwarded => default EmptyString (head (Py.split "," forwarded))
  | None => Request.client_host request
  end.

Fixpoint has_comma (s : string) : bool :=
  match s with
  | EmptyString => false
  | String c s' => bool_decide (c = ","%char) || has_comma s'
  end.

Definition is_envelope (r : response) : bool :=
  match r with Envelope _ _ _ => true | _ => false end.

(** The handlers whose body is wrapped in [try ... except Exception]. *)
Definition guarded (c : api_call) : bool :=
  match c with
  | Signup _ | Login _ | VerifyPin _ | GetUserInfo _ | GetUserTransactions _ => true
  | CheckFraud _ _ | GetAllTransactions | GetBlacklist | HealthCheck => false
  end.

(** The calls on the store that a route reaches on the world [w], in the
    order of the source, when each call before is answered. *)
Definition store_calls (c : api_call) (w : World) : list store_call :=
  match c with
  | Signup user =>
      UsersFindOne ::
      match Mongo.find_one (user_by_account (User.account user)) (users_collection w) with
      | Some _ => []
      | None =>
          if negb (Py.isdigit (User.pin user))
             || negb (String.length (User.pin user) =? 4)
          then []
          else [UsersInsertOne]
      end
  | Login _ => [UsersFindOne]
  | VerifyPin pin_data =>
      UsersFindOne ::
      match Mongo.find_one (user_by_account (PinVerification.account pin_data))
              (users_collection w) with
      | None => []
      | Some user =>
          if negb (verify_password (PinVerification.pin pin_data) (UserDoc.pin user))
          then
            BlacklistFindOne ::
            match Mongo.find_one
                    (blacklisted_account
                       (Transaction.recipient_account
                          (PinVerification.transaction pin_data)))
                    (blacklist_collection w) with
            | Some _ => []
            | None => [BlacklistInsertOne]
            end
          else [TxnUpdateOne]
      end
  | CheckFraud txn request =>
      match strptime (Transaction.timestamp txn) with
      | None => []
      | Some _ =>
          BlacklistFindOne :: TxnFind :: TxnInsertOne ::
          (if (scored txn request w).2
              && Py.startswith "Bearer "
                   (default EmptyString
                      (Request.get "authorization" (Request.headers request)))
           then [UsersFindOne]
           else [])
      end
  | GetAllTransactions => [TxnFind]
  | GetBlacklist => [BlacklistFind]
  | GetUserInfo _ => [UsersFindOne]
  | GetUserTransactions account =>
      UsersFindOne ::
      match Mongo.find_one (user_by_account account) (users_collection w) with
      | None => []
      | Some _ => [TxnFind]
      end
  | HealthCheck => []
  end.

(** A call of [verify_pin] by an account stored in [w], with a PIN that
    does not match, for a transaction to [recipient], the store working. *)
Definition failed_challenge (w : World) (recipient : string)
    (call : Env * api_call) : Prop :=
  reliable call.1 ∧
  ∃ pin_data user,
    call.2 = VerifyPin pin_data ∧
    Mongo.find_one (user_by_account (PinVerification.account pin_data))
      (users_collection w) = Some user ∧
    verify_password (PinVerification.pin pin_data) (UserDoc.pin user) = false ∧
    Transaction.recipient_account (PinVerification.transaction pin_data) = recipient.

(** The blacklist entry a failed challenge writes. *)
Definition blocked_entry (e : Env) (pin_data : PinVerification.t) : BlacklistDoc.t :=
  BlacklistDoc.mk "account"
    (Transaction.recipient_account (PinVerification.transaction pin_data))
    [invalid_pin_reason] (now e) (PinVerification.account pin_data).

(** The key of a blacklist entry: its type and the blocked value. *)
Definition blacklist_key (b : BlacklistDoc.t) : string * string :=
  (BlacklistDoc.type b, BlacklistDoc.value b).

(** A stored transaction is either pending, flagged and not verified, or
    approved and verified; a flagged one is approved only with the time of
    its PIN verification; it is flagged exactly when it carries a reason. *)
Definition status_consistent (d : TxnDoc.t) : Prop :=
  ((TxnDoc.status d = "pending" ∧ TxnDoc.pin_verified d = false ∧
    TxnDoc.is_fraud d = true ∧ TxnDoc.verified_at d = None) ∨
   (TxnDoc.status d = "approved" ∧ TxnDoc.pin_verified d = true ∧
    (TxnDoc.is_fraud d = true → is_Some (TxnDoc.verified_at d)))) ∧
  (TxnDoc.is_fraud d = true ↔ TxnDoc.fraud_reason d ≠ []).

(** The routes that only read. *)
Definition read_only (c : api_call) : bool :=
  match c with
  | Login _ | GetAllTransactions | GetBlacklist | GetUserInfo _
  | GetUserTransactions _ | HealthCheck => true
  | Signup _ | VerifyPin _ | CheckFraud _ _ => false
  end.

(** The number of detectors that fired. *)
Definition signals_fired (txn : Transaction.t) (request : Request.t) (w : World) : nat :=
  Nat.b2n (ip_signal request) + Nat.b2n (recipient_signal txn w)
  + Nat.b2n (behavioral_signal txn w) + Nat.b2n (geo_signal txn w).

(** ** The detectors *)

Lemma last_slice_length {A} (n : nat) (l : list A) :
  length (Py.last_slice n l) ≤ length l.
Proof.
  destruct n as [|n]; simpl; [lia|].
  rewrite length_drop. lia.
Qed.

(** C5: with fewer than two prior amounts the behavioural detector reports
    "not anomalous", for every candidate amount (and every window size and
    threshold). *)
Theorem behavioral_needs_two_samples (past_txns : list TxnDoc.t)
    (current_amount : float) (window_size : nat) (z_thresh : float) :
  length past_txns < 2 →
  detect_behavioral_anomaly past_txns current_amount window_size z_thresh = false.
Proof.
  intros Hshort. unfold detect_behavioral_anomaly.
  pose proof (last_slice_length window_size (TxnDoc.amount <$> past_txns)) as Hle.
  rewrite length_fmap in Hle.
  destruct (Nat.ltb_spec (length (Py.last_slice window_size (TxnDoc.amount <$> past_txns))) 2);
    [reflexivity | lia].
Qed.

(** *** Windows of one repeated amount *)

Lemma finite_classes (x : float) :
  PrimFloat.is_finite x = true →
  (∃ s, Prim2SF x = S754_zero s) ∨ (∃ s m e, Prim2SF x = S754_finite s m e).
Proof.
  unfold PrimFloat.is_finite. intros Hfin.
  apply negb_true_iff, orb_false_iff in Hfin as [Hnan Hinf].
  unfold Prim2SF. rewrite Hnan, Hinf.
  destruct (PrimFloat.is_zero x); [left; by eexists|].
  destruct (Z.frexp x) as [r ex].
  destruct (shr_fexp _ _ _ _ _) as [shr e'].
  destruct (shr_m shr); [left|right|left]; by repeat eexists.
Qed.

(** A finite float minus itself is zero. *)
Lemma sub_self (x : float) :
  PrimFloat.is_finite x = true → PrimFloat.sub x x = 0%float.
Proof.
  intros Hfin. apply Prim2SF_inj. rewrite sub_spec.
  destruct (finite_classes x Hfin) as [[s ->]|(s & m & e & ->)].
  - by destruct s.
  - unfold SF64sub, SFsub. cbv zeta. rewrite Z.sub_diag. reflexivity.
Qed.

Lemma sum_zeros (n : nat) : Np.sum (replicate n 0%float) = 0%float.
Proof.
  unfold Np.sum. induction n as [|n IH]; [reflexivity|].
  simpl. exact IH.
Qed.

Lemma Forall_eq_replicate (x : float) (l : list float) :
  Forall (λ a, a = x) l → l = replicate (length l) x.
Proof.
  induction 1 as [|a l -> _ IH]; [reflexivity|].
  simpl. by rewrite <- IH.
Qed.

Lemma last_slice_five {A} (l : list A) : length (Py.last_slice 5 l) ≤ 5.
Proof. unfold Py.last_slice. rewrite length_drop. lia. Qed.

(** When the mean of [n] copies of a finite amount is that amount again,
    every deviation is zero and so is [np.std]. *)
Lemma std_of_repeated (x : float) (n : nat) :
  1 ≤ n ≤ 5 →
  PrimFloat.is_finite x = true →
  Np.mean (replicate n x) = x →
  Np.std (replicate n x) = 0%float.
Proof.
  intros Hn Hfin Hmean. unfold Np.std. rewrite Hmean.
  rewrite !fmap_replicate, (sub_self x Hfin).
  change (PrimFloat.mul 0 0) with 0%float.
  rewrite sum_zeros. unfold Np.count. rewrite !length_replicate.
  destruct n as [|[|[|[|[|[|n]]]]]]; try lia; reflexivity.
Qed.

(** Where the guard [std != 0] does its work: when the computed standard
    deviation of the windowed amounts is zero, the behavioural detector
    reports "not anomalous" for every candidate amount; this is the case of
    a window of one repeated finite amount whose computed mean is that
    amount again. *)
Theorem behavioral_zero_deviation (past_txns : list TxnDoc.t) (current_amount : float) :
  (PrimFloat.eqb (Np.std (Py.last_slice 5 (TxnDoc.amount <$> past_txns))) 0 = true →
   detect_behavioral_anomaly past_txns current_amount 5 2.5 = false) ∧
  (∀ x,
     Forall (λ a, a = x) (Py.last_slice 5 (TxnDoc.amount <$> past_txns)) →
     PrimFloat.is_finite x = true →
     Np.mean (Py.last_slice 5 (TxnDoc.amount <$> past_txns)) = x →
     detect_behavioral_anomaly past_txns current_amount 5 2.5 = false).
Proof.
  assert (PrimFloat.eqb (Np.std (Py.last_slice 5 (TxnDoc.amount <$> past_txns))) 0 = true →
          detect_behavioral_anomaly past_txns current_amount 5 2.5 = false) as Hzero.
  { intros Hzero. unfold detect_behavioral_anomaly.
    destruct (length _ <? 2); [reflexivity|].
    cbv zeta. rewrite Hzero. reflexivity. }
  split; [exact Hzero|].
  intros x Hsame Hfin Hmean.
  destruct (Nat.ltb_spec (length (Py.last_slice 5 (TxnDoc.amount <$> past_txns))) 2)
    as [Hshort|Hlong].
  - unfold detect_behavioral_anomaly.
    destruct (Nat.ltb_spec (length (Py.last_slice 5 (TxnDoc.amount <$> past_txns))) 2);
      [reflexivity | lia].
  - apply Hzero.
    pose proof (last_slice_five (TxnDoc.amount <$> past_txns)) as Hfive.
    apply Forall_eq_replicate in Hsame. rewrite Hsame in Hmean |- *.
    rewrite std_of_repeated; [reflexivity | lia | exact Hfin | exact Hmean].
Qed.

Lemma location_lookup_empty_name : location_lookup !! EmptyString = None.
Proof. vm_compute. reflexivity. Qed.

(** C6: the geo-drift detector does not flag when the candidate location is
    not in the table, when no last location is recorded for the card, or
    when the recorded location is not in the table; otherwise it flags
    exactly when the distance between the two coordinate pairs exceeds
    500 km. *)
Theorem geo_drift_cases (known : gmap string string) (card_type current_location : string) :
  (location_lookup !! current_location = None →
     detect_geo_drift known card_type current_location 500 = false) ∧
  (known !! card_type = None →
     detect_geo_drift known card_type current_location 500 = false) ∧
  (∀ last_location,
     known !! card_type = Some last_location →
     location_lookup !! last_location = None →
     detect_geo_drift known card_type current_location 500 = false) ∧
  (∀ last_location last_coords current_coords,
     location_lookup !! current_location = Some current_coords →
     known !! card_type = Some last_location →
     location_lookup !! last_location = Some last_coords →
     detect_geo_drift known card_type current_location 500
     = PrimFloat.ltb 500 (geodesic_km last_coords current_coords)).
Proof.
  unfold detect_geo_drift. repeat split.
  - intros ->. reflexivity.
  - intros ->. destruct (location_lookup !! current_location); reflexivity.
  - intros last Hknown Hlast. rewrite Hknown, Hlast.
    destruct (location_lookup !! current_location); [|reflexivity].
    case_bool_decide; reflexivity.
  - intros last lc cc Hcur Hknown Hlast. rewrite Hcur, Hknown, Hlast.
    case_bool_decide as Hempty; [|reflexivity].
    subst last. rewrite location_lookup_empty_name in Hlast. discriminate.
Qed.

(** ** Running the handlers *)

Ltac run_body :=
  unfold try_except, no_try, store, gets, modify, raise, send_sms_notification,
    mbind, M_bind, mret, M_ret.

Lemma verify_pin_mismatch (e : Env) (pin_data : PinVerification.t) (w : World)
    (user : UserDoc.t) :
  reliable e →
  Mongo.find_one (user_by_account (PinVerification.account pin_data))
    (users_collection w) = Some user →
  verify_password (PinVerification.pin pin_data) (UserDoc.pin user) = false →
  verify_pin e pin_data w =
    (Envelope false (Some "Invalid PIN. Transaction blocked and recipient blacklisted.")
       NoPayload,
     set_sms_sent
       (λ out, out ++ [Sms.mk (UserDoc.phone user)
          (Sms.Blocked (Transaction.recipient_account (PinVerification.transaction pin_data)))])
       (match Mongo.find_one
                (blacklisted_account
                   (Transaction.recipient_account (PinVerification.transaction pin_data)))
                (blacklist_collection w) with
        | Some _ => w
        | None => set_blacklist (Mongo.insert_one (blocked_entry e pin_data)) w
        end)).
Proof.
  intros Hrel Huser Hpin. unfold verify_pin. run_body.
  rewrite !Hrel, Huser, Hpin. cbn [negb].
  destruct (Mongo.find_one _ (blacklist_collection w)); reflexivity.
Qed.

Lemma verify_pin_match (e : Env) (pin_data : PinVerification.t) (w : World)
    (user : UserDoc.t) :
  reliable e →
  Mongo.find_one (user_by_account (PinVerification.account pin_data))
    (users_collection w) = Some user →
  verify_password (PinVerification.pin pin_data) (UserDoc.pin user) = true →
  verify_pin e pin_data w =
    (Envelope true (Some "PIN verified successfully. Transaction approved.") NoPayload,
     set_sms_sent
       (λ out, out ++ [Sms.mk (UserDoc.phone user)
          (Sms.Approved
             (Transaction.transaction_id (PinVerification.transaction pin_data))
             (Transaction.currency (PinVerification.transaction pin_data))
             (Transaction.amount (PinVerification.transaction pin_data)))])
       (set_collection
          (Mongo.update_one
             (txn_by_id (Transaction.transaction_id (PinVerification.transaction pin_data)))
             (approve (now e)))
          w)).
Proof.
  intros Hrel Huser Hpin. unfold verify_pin. run_body.
  rewrite !Hrel, Huser, Hpin. reflexivity.
Qed.

Lemma alert_owner_runs (e : Env) (txn : Transaction.t) (request : Request.t) (w : World) :
  reliable e →
  ∃ out, alert_owner e txn request w = (Ok (), set_sms_sent (λ _, out) w).
Proof.
  intros Hrel. unfold alert_owner. run_body.
  destruct w as [us col bl known out]. unfold set_sms_sent. simpl.
  destruct (Py.startswith _ _); [|by eexists].
  rewrite Hrel. destruct (Mongo.find_one _ _); by eexists.
Qed.

Lemma flag_verdict (h1 h2 h3 h4 : bool) (r1 r2 r3 r4 : string) :
  (flag h4 r4 (flag h3 r3 (flag h2 r2 (flag h1 r1 ([], false))))).2
  = h1 || h2 || h3 || h4.
Proof. by destruct h1, h2, h3, h4. Qed.

Lemma scored_verdict (txn : Transaction.t) (request : Request.t) (w : World) :
  (scored txn request w).2
  = ip_signal request || recipient_signal txn w || behavioral_signal txn w
    || geo_signal txn w.
Proof. apply flag_verdict. Qed.

(** What [check_fraud] does to a request whose timestamp parses, the store
    working: the answer, and the world it leaves. *)
Lemma check_fraud_scored (e : Env) (txn : Transaction.t) (request : Request.t)
    (w : World) (parsed : Datetime.t) :
  reliable e →
  strptime (Transaction.timestamp txn) = Some parsed →
  ∃ out,
    check_fraud e txn request w =
      (Verdict (scored txn request w).2 (scored txn request w).1,
       mkWorld (users_collection w)
         (collection w ++
            [transaction_doc e txn parsed (get_client_ip request)
               (scored txn request w).2 (scored txn request w).1])
         (blacklist_collection w)
         (if (scored txn request w).2 then last_known_location w
          else <[Transaction.card_type txn := Transaction.location txn]>
                 (last_known_location w))
         out).
Proof.
  intros Hrel Hparse. unfold check_fraud. rewrite Hparse.
  unfold no_try, mbind, M_bind at 1. unfold mret at 1, M_ret at 1.
  unfold mbind, M_bind at 1. unfold store at 1. rewrite Hrel. unfold gets at 1.
  unfold mbind, M_bind at 1. unfold store at 1. rewrite Hrel. unfold gets at 1.
  unfold mbind, M_bind at 1. unfold gets at 1.
  fold (ip_signal request) (recipient_signal txn w) (behavioral_signal txn w)
    (geo_signal txn w).
  fold (scored txn request w).
  destruct (scored txn request w) as [reasons is_fraud]. cbn [fst snd].
  unfold mbind, M_bind at 1.
  destruct is_fraud; cbn [negb].
  - unfold mret at 1, M_ret at 1. unfold mbind, M_bind at 1.
    unfold store at 1. rewrite Hrel. unfold modify at 1.
    unfold mbind, M_bind at 1.
    destruct (alert_owner_runs e txn request
                (set_collection (Mongo.insert_one
                   (transaction_doc e txn parsed (get_client_ip request) true reasons)) w)
                Hrel) as [out ->].
    exists out. reflexivity.
  - unfold modify at 1. unfold mbind, M_bind at 1.
    unfold store at 1. rewrite Hrel. unfold modify at 1.
    exists (sms_sent w). reflexivity.
Qed.

(** ** Scoring *)

(** C1: a scored transaction is fraud exactly when one of the four signals
    fires; it is stored as "pending" and not PIN-verified when fraud, as
    "approved" and PIN-verified when not. *)
Theorem check_fraud_policy (e : Env) (txn : Transaction.t) (request : Request.t)
    (w : World) (parsed : Datetime.t) :
  reliable e →
  strptime (Transaction.timestamp txn) = Some parsed →
  ∃ fraud reasons doc,
    (check_fraud e txn request w).1 = Verdict fraud reasons ∧
    (fraud = true ↔
       ip_signal request = true ∨ recipient_signal txn w = true ∨
       behavioral_signal txn w = true ∨ geo_signal txn w = true) ∧
    collection (check_fraud e txn request w).2 = collection w ++ [doc] ∧
    TxnDoc.transaction_id doc = Transaction.transaction_id txn ∧
    TxnDoc.is_fraud doc = fraud ∧
    (fraud = true → TxnDoc.status doc = "pending" ∧ TxnDoc.pin_verified doc = false) ∧
    (fraud = false → TxnDoc.status doc = "approved" ∧ TxnDoc.pin_verified doc = true).
Proof.
  intros Hrel Hparse.
  destruct (check_fraud_scored e txn request w parsed Hrel Hparse) as [out ->].
  eexists _, _, _. cbn [fst snd collection].
  split; [reflexivity|]. split.
  - rewrite scored_verdict, !orb_true_iff. tauto.
  - split; [reflexivity|]. cbn [transaction_doc TxnDoc.transaction_id TxnDoc.is_fraud
      TxnDoc.status TxnDoc.pin_verified].
    split; [reflexivity|]. split; [reflexivity|].
    split; intros ->; split; reflexivity.
Qed.


(** ** The PIN challenge *)

Lemma approve_keeps_id (t : Datetime.t) (transaction_id : string) (d : TxnDoc.t) :
  txn_by_id transaction_id (approve t d) = txn_by_id transaction_id d.
Proof. reflexivity. Qed.

Lemma update_one_find {A} (p : A → bool) (f : A → A) (docs : list A) (d : A) :
  (∀ x, p (f x) = p x) →
  Mongo.find_one p docs = Some d →
  Mongo.find_one p (Mongo.update_one p f docs) = Some (f d).
Proof.
  intros Hkeep. unfold Mongo.find_one.
  induction docs as [|x docs IH]; simpl; [discriminate|].
  destruct (p x) eqn:Hx; simpl.
  - intros [= ->]. by rewrite Hkeep, Hx.
  - intros Hfind. rewrite Hx. by apply IH.
Qed.

Lemma update_one_none {A} (p : A → bool) (f : A → A) (docs : list A) :
  Mongo.find_one p docs = None → Mongo.update_one p f docs = docs.
Proof.
  unfold Mongo.find_one.
  induction docs as [|x docs IH]; simpl; [done|].
  destruct (p x); [discriminate|]. intros Hnone. by rewrite IH.
Qed.

(** C9: when the account exists and the PIN matches, [verify_pin] reports
    success with the approval message whatever the transaction collection
    holds; when no stored transaction has the submitted identifier the
    collection is left as it was. *)
Theorem verify_pin_success_unchecked (e : Env) (pin_data : PinVerification.t)
    (w : World) (user : UserDoc.t) :
  reliable e →
  Mongo.find_one (user_by_account (PinVerification.account pin_data))
    (users_collection w) = Some user →
  verify_password (PinVerification.pin pin_data) (UserDoc.pin user) = true →
  (verify_pin e pin_data w).1
  = Envelope true (Some "PIN verified successfully. Transaction approved.") NoPayload ∧
  (Mongo.find_one
     (txn_by_id (Transaction.transaction_id (PinVerification.transaction pin_data)))
     (collection w) = None →
   collection (verify_pin e pin_data w).2 = collection w).
Proof.
  intros Hrel Huser Hpin. rewrite (verify_pin_match e pin_data w user Hrel Huser Hpin).
  split; [reflexivity|]. intros Hnone. cbn [snd]. simpl.
  by apply update_one_none.
Qed.


(** ** The blacklist *)

Lemma find_none_filter {A} (p : A → bool) (l : list A) :
  List.find p l = None → List.filter p l = [].
Proof.
  induction l as [|x l IH]; simpl; [done|].
  destruct (p x); [discriminate | exact IH].
Qed.

Lemma find_some_filter {A} (p : A → bool) (l : list A) (x : A) :
  List.find p l = Some x → 1 ≤ length (List.filter p l).
Proof.
  induction l as [|y l IH]; simpl; [discriminate|].
  destruct (p y); simpl; [lia | exact IH].
Qed.

Lemma find_snoc_hit {A} (p : A → bool) (l : list A) (x : A) :
  p x = true → is_Some (List.find p (l ++ [x])).
Proof.
  intros Hx. induction l as [|y l IH]; simpl.
  - rewrite Hx. by eexists.
  - destruct (p y); [by eexists | exact IH].
Qed.

Lemma failed_challenge_users (w1 w2 : World) (recipient : string)
    (call : Env * api_call) :
  users_collection w1 = users_collection w2 →
  failed_challenge w1 recipient call → failed_challenge w2 recipient call.
Proof.
  intros Husers [Hrel (p & u & Hcall & Hfind & Hpin & Hrec)].
  split; [exact Hrel|]. exists p, u. by rewrite <- Husers.
Qed.

Lemma failed_challenge_step (w : World) (recipient : string) (e : Env) (c : api_call) :
  failed_challenge w recipient (e, c) →
  ∃ pin_data,
    c = VerifyPin pin_data ∧
    Transaction.recipient_account (PinVerification.transaction pin_data) = recipient ∧
    users_collection (handle e c w).2 = users_collection w ∧
    blacklist_collection (handle e c w).2
    = match Mongo.find_one (blacklisted_account recipient) (blacklist_collection w) with
      | Some _ => blacklist_collection w
      | None => blacklist_collection w ++ [blocked_entry e pin_data]
      end.
Proof.
  intros [Hrel (p & u & Hcall & Hfind & Hpin & Hrec)]. simpl in *. subst c.
  exists p. split; [reflexivity|]. split; [exact Hrec|]. simpl.
  rewrite (verify_pin_mismatch e p w u Hrel Hfind Hpin). cbn [snd]. rewrite Hrec.
  destruct (Mongo.find_one _ (blacklist_collection w)); split; reflexivity.
Qed.

Lemma listed_stays (recipient : string) (calls : list (Env * api_call)) (w : World) :
  Forall (failed_challenge w recipient) calls →
  is_Some (Mongo.find_one (blacklisted_account recipient) (blacklist_collection w)) →
  blacklist_collection (run calls w) = blacklist_collection w.
Proof.
  revert w. induction calls as [|[e c] calls IH]; intros w Hall Hlisted; [done|].
  inversion_clear Hall as [|? ? Hcall Hrest]. simpl.
  destruct (failed_challenge_step w recipient e c Hcall)
    as (p & -> & Hrec & Husers & Hbl).
  destruct Hlisted as [b Hb]. rewrite Hb in Hbl.
  rewrite IH.
  - exact Hbl.
  - eapply Forall_impl; [exact Hrest|]. intros call.
    apply failed_challenge_users. by rewrite Husers.
  - rewrite Hbl, Hb. by eexists.
Qed.

(** C2, as the code has it: after any non-empty sequence of failed PIN
    challenges naming one recipient, the blacklist holds exactly one entry
    for that recipient; a repeated trigger leaves the existing entry as it
    is, so an entry created by the first trigger keeps its single reason
    however many triggers follow. *)
Theorem blacklist_entry_is_single (w : World) (recipient : string)
    (calls : list (Env * api_call)) :
  calls ≠ [] →
  Forall (failed_challenge w recipient) calls →
  length (List.filter (blacklisted_account recipient) (blacklist_collection w)) ≤ 1 →
  length (List.filter (blacklisted_account recipient)
            (blacklist_collection (run calls w))) = 1 ∧
  (is_Some (Mongo.find_one (blacklisted_account recipient) (blacklist_collection w)) →
     blacklist_collection (run calls w) = blacklist_collection w) ∧
  (Mongo.find_one (blacklisted_account recipient) (blacklist_collection w) = None →
     ∃ e pin_data,
       head calls = Some (e, VerifyPin pin_data) ∧
       blacklist_collection (run calls w)
       = blacklist_collection w ++ [blocked_entry e pin_data] ∧
       BlacklistDoc.reason (blocked_entry e pin_data) = [invalid_pin_reason]).
Proof.
  intros Hne Hall Hatmost.
  destruct (Mongo.find_one (blacklisted_account recipient) (blacklist_collection w))
    as [b|] eqn:Hfind.
  - assert (blacklist_collection (run calls w) = blacklist_collection w) as Hsame.
    { apply (listed_stays recipient); [exact Hall | rewrite Hfind; by eexists]. }
    rewrite Hsame. split; [|split; [done | discriminate]].
    apply find_some_filter in Hfind. lia.
  - destruct calls as [|[e c] calls]; [done|].
    inversion_clear Hall as [|? ? Hcall Hrest]. simpl.
    destruct (failed_challenge_step w recipient e c Hcall)
      as (p & -> & Hrec & Husers & Hbl).
    rewrite Hfind in Hbl.
    assert (blacklisted_account recipient (blocked_entry e p) = true) as Hhit.
    { unfold blacklisted_account, blocked_entry. simpl. rewrite Hrec.
      by rewrite !bool_decide_eq_true_2. }
    assert (blacklist_collection (run calls (handle e (VerifyPin p) w).2)
            = blacklist_collection w ++ [blocked_entry e p]) as Hend.
    { rewrite <- Hbl. apply (listed_stays recipient).
      - eapply Forall_impl; [exact Hrest|]. intros call.
        apply failed_challenge_users. by rewrite Husers.
      - rewrite Hbl. by apply find_snoc_hit. }
    rewrite Hend. split; [|split].
    + rewrite List.filter_app, (find_none_filter _ _ Hfind). simpl.
      by rewrite Hhit.
    + intros [? [=]].
    + intros _. by exists e, p.
Qed.

(** ** Answers *)

(** The five handlers written with [try ... except] answer every request
    with a success/failure envelope, a failure always carrying a message. *)
Lemma guarded_answers_are_envelopes (e : Env) (c : api_call) (w : World) :
  guarded c = true →
  ∃ success message data,
    (handle e c w).1 = Envelope success message data ∧
    (success = false → is_Some message).
Proof.
  intros Hguarded.
  destruct c; try discriminate; clear Hguarded;
    unfold handle, signup, login, verify_pin, get_user_info, get_user_transactions,
      internal_server_error;
    run_body;
    repeat (case_match; simplify_eq/=);
    eexists _, _, _; (split; [reflexivity|]); first [by eauto | discriminate].
Qed.

(** ** The originating address *)

Lemma append_nil_r (s : string) : s +:+ EmptyString = s.
Proof.
  induction s as [|c s IH]; [reflexivity|].
  change (String c (s +:+ EmptyString) = String c s). by rewrite IH.
Qed.

Lemma append_snoc (s t : string) (c : ascii) :
  (s +:+ String c EmptyString) +:+ t = s +:+ String c t.
Proof.
  induction s as [|d s IH]; [reflexivity|].
  change (String d ((s +:+ String c EmptyString) +:+ t) = String d (s +:+ String c t)).
  by rewrite IH.
Qed.

Lemma has_comma_append (s r : string) : has_comma (s +:+ String "," r) = true.
Proof.
  induction s as [|c s IH]; [reflexivity|].
  change (bool_decide (c = ","%char) || has_comma (s +:+ String "," r) = true).
  rewrite IH. apply orb_true_r.
Qed.

Lemma prefix_comma (c : ascii) (s : string) :
  String.prefix "," (String c s) = bool_decide (c = ","%char).
Proof.
  cbn [String.prefix]. destruct (ascii_dec "," c) as [<-|Hc].
  - by destruct s.
  - by rewrite bool_decide_eq_false_2.
Qed.

(** The first piece of a split at commas is the text before the first
    comma. *)
Lemma split_go_head (cur s : string) :
  ∃ entry rest,
    s = entry +:+ rest ∧ has_comma entry = false ∧
    (rest = EmptyString ∨ ∃ r, rest = String "," r) ∧
    head (Py.split_go "," 0 cur s) = Some (cur +:+ entry).
Proof.
  revert cur. induction s as [|c s IH]; intros cur.
  - exists EmptyString, EmptyString. rewrite !append_nil_r. split; [done|]. split; [done|].
    split; [by left | done].
  - destruct (decide (c = ","%char)) as [->|Hc].
    + exists EmptyString, (String "," s). rewrite append_nil_r.
      split; [done|]. split; [done|]. split; [right; by eexists|].
      cbn [Py.split_go]. by rewrite prefix_comma.
    + destruct (IH (cur +:+ String c EmptyString)) as (entry & rest & -> & Hno & Hrest & Hhead).
      exists (String c entry), rest. split; [reflexivity|].
      split; [simpl; by rewrite bool_decide_eq_false_2|].
      split; [exact Hrest|].
      rewrite <- append_snoc, <- Hhead. cbn [Py.split_go].
      by rewrite prefix_comma, bool_decide_eq_false_2.
Qed.

Lemma scored_names_address (txn : Transaction.t) (request : Request.t) (w : World) :
  ip_signal request = true →
  (scored txn request w).2 = true ∧
  head (scored txn request w).1
  = Some ("Blacklisted IP Address: " +:+ get_client_ip request).
Proof.
  intros Hip. unfold scored. rewrite Hip.
  by destruct (recipient_signal txn w), (behavioral_signal txn w), (geo_signal txn w).
Qed.

(** C10, as the code has it: the address is the socket peer when the
    [x-forwarded-for] header is absent or empty, and otherwise the text of
    the header before its first comma with surrounding blanks stripped;
    [check_fraud] stores that address with the transaction and tests it
    against the denylist, so a caller chooses the tested address by
    sending the header. *)
Theorem client_ip_source :
  (∀ request,
     Request.get "x-forwarded-for" (Request.headers request) = None →
     get_client_ip request = Request.client_host request) ∧
  (∀ request,
     Request.get "x-forwarded-for" (Request.headers request) = Some EmptyString →
     get_client_ip request = Request.client_host request) ∧
  (∀ request forwarded,
     Request.get "x-forwarded-for" (Request.headers request) = Some forwarded →
     forwarded ≠ EmptyString →
     ∃ entry rest,
       forwarded = entry +:+ rest ∧ has_comma entry = false ∧
       (rest = EmptyString ∨ ∃ r, rest = String "," r) ∧
       get_client_ip request = Py.strip entry) ∧
  (∀ e txn request w parsed,
     reliable e →
     strptime (Transaction.timestamp txn) = Some parsed →
     ∃ fraud reasons doc,
       (check_fraud e txn request w).1 = Verdict fraud reasons ∧
       last (collection (check_fraud e txn request w).2) = Some doc ∧
       TxnDoc.client_ip doc = get_client_ip request ∧
       (get_client_ip request ∈ BLACKLISTED_IPS →
        fraud = true ∧
        head reasons = Some ("Blacklisted IP Address: " +:+ get_client_ip request))) ∧
  (∀ hs host v,
     v ≠ EmptyString → has_comma v = false → Py.strip v = v →
     get_client_ip (Request.mk (("x-forwarded-for", v) :: hs) host) = v).
Proof.
  split; [|split; [|split; [|split]]].
  - intros request Hget. unfold get_client_ip. by rewrite Hget.
  - intros request Hget. unfold get_client_ip. by rewrite Hget.
  - intros request forwarded Hget Hne. unfold get_client_ip. rewrite Hget.
    rewrite bool_decide_eq_false_2 by exact Hne.
    destruct (split_go_head EmptyString forwarded) as (entry & rest & Heq & Hno & Hrest & Hhead).
    exists entry, rest. unfold Py.split. rewrite Hhead. by repeat split.
  - intros e txn request w parsed Hrel Hparse.
    destruct (check_fraud_scored e txn request w parsed Hrel Hparse) as [out ->].
    eexists _, _, _. cbn [fst snd collection].
    split; [reflexivity|]. split; [apply last_snoc|]. split; [reflexivity|].
    intros Hin. apply scored_names_address. unfold ip_signal.
    by rewrite bool_decide_eq_true_2.
  - intros hs host v Hne Hno Hstrip. unfold get_client_ip. simpl.
    rewrite bool_decide_eq_false_2 by exact Hne.
    destruct (split_go_head EmptyString v) as (entry & rest & Heq & Hno' & Hrest & Hhead).
    unfold Py.split. rewrite Hhead. simpl.
    destruct Hrest as [->|[r ->]].
    + rewrite append_nil_r in Heq. by subst entry.
    + subst v. by rewrite has_comma_append in Hno.
Qed.


(** ** What a handler can change, in every environment *)

Lemma alert_owner_frame (e : Env) (txn : Transaction.t) (request : Request.t) (w : World) :
  ∃ res out, alert_owner e txn request w = (res, set_sms_sent (λ _, out) w).
Proof.
  unfold alert_owner. run_body.
  destruct w as [us col bl known out]. unfold set_sms_sent. simpl.
  destruct (Py.startswith _ _); [|by eexists _, _].
  destruct (store_down e UsersFindOne); [by eexists _, _|].
  destruct (Mongo.find_one _ _); by eexists _, _.
Qed.

Ltac kept := simpl; eexists _, _, _, _; split; [reflexivity|]; left; reflexivity.

Lemma check_fraud_frame (e : Env) (txn : Transaction.t) (request : Request.t) (w : World) :
  ∃ answer col known out,
    check_fraud e txn request w
    = (answer, mkWorld (users_collection w) col (blacklist_collection w) known out) ∧
    (col = collection w ∨
     ∃ parsed,
       strptime (Transaction.timestamp txn) = Some parsed ∧
       col = collection w ++
               [transaction_doc e txn parsed (get_client_ip request)
                  (scored txn request w).2 (scored txn request w).1]).
Proof.
  unfold check_fraud.
  destruct (strptime (Transaction.timestamp txn)) as [parsed|] eqn:Hparse;
    [|destruct w; kept].
  unfold no_try, mbind, M_bind at 1. unfold mret at 1, M_ret at 1.
  unfold mbind, M_bind at 1. unfold store at 1.
  destruct (store_down e BlacklistFindOne); [destruct w; kept|].
  unfold gets at 1.
  unfold mbind, M_bind at 1. unfold store at 1.
  destruct (store_down e TxnFind); [destruct w; kept|].
  unfold gets at 1.
  unfold mbind, M_bind at 1. unfold gets at 1.
  fold (ip_signal request) (recipient_signal txn w) (behavioral_signal txn w)
    (geo_signal txn w).
  fold (scored txn request w).
  destruct (scored txn request w) as [reasons is_fraud]. cbn [fst snd].
  unfold mbind, M_bind at 1.
  destruct is_fraud; cbn [negb].
  - unfold mret at 1, M_ret at 1. unfold mbind, M_bind at 1. unfold store at 1.
    destruct (store_down e TxnInsertOne); [destruct w; kept|].
    unfold modify at 1. unfold mbind, M_bind at 1.
    destruct (alert_owner_frame e txn request
                (set_collection (Mongo.insert_one
                   (transaction_doc e txn parsed (get_client_ip request) true reasons)) w))
      as (res & out & ->).
    destruct res; (eexists _, _, _, _; split; [reflexivity|]; right; by exists parsed).
  - unfold modify at 1. unfold mbind, M_bind at 1. unfold store at 1.
    destruct (store_down e TxnInsertOne).
    + eexists _, _, _, _. split; [reflexivity|]. by left.
    + unfold modify at 1. eexists _, _, _, _. split; [reflexivity|].
      right. by exists parsed.
Qed.

Lemma verify_pin_frame (e : Env) (pin_data : PinVerification.t) (w : World) :
  users_collection (verify_pin e pin_data w).2 = users_collection w ∧
  ((collection (verify_pin e pin_data w).2 = collection w ∧
    blacklist_collection (verify_pin e pin_data w).2 = blacklist_collection w) ∨
   (collection (verify_pin e pin_data w).2 = collection w ∧
    Mongo.find_one
      (blacklisted_account
         (Transaction.recipient_account (PinVerification.transaction pin_data)))
      (blacklist_collection w) = None ∧
    blacklist_collection (verify_pin e pin_data w).2
    = blacklist_collection w ++ [blocked_entry e pin_data]) ∨
   (blacklist_collection (verify_pin e pin_data w).2 = blacklist_collection w ∧
    collection (verify_pin e pin_data w).2
    = Mongo.update_one
        (txn_by_id (Transaction.transaction_id (PinVerification.transaction pin_data)))
        (approve (now e)) (collection w))).
Proof.
  unfold verify_pin. run_body.
  destruct (store_down e UsersFindOne); [by split; [|left]|].
  destruct (Mongo.find_one _ (users_collection w)) as [user|]; [|by split; [|left]].
  destruct (verify_password _ _); cbn [negb].
  - destruct (store_down e TxnUpdateOne); [by split; [|left]|].
    split; [done|]. right. right. done.
  - destruct (store_down e BlacklistFindOne); [by split; [|left]|].
    destruct (Mongo.find_one _ (blacklist_collection w)) as [b|] eqn:Hlisted;
      [by split; [|left]|].
    destruct (store_down e BlacklistInsertOne); [by split; [|left]|].
    split; [done|]. right. left. done.
Qed.

Lemma signup_frame (e : Env) (user : User.t) (w : World) :
  collection (signup e user w).2 = collection w ∧
  blacklist_collection (signup e user w).2 = blacklist_collection w ∧
  (users_collection (signup e user w).2 = users_collection w ∨
   Mongo.find_one (user_by_account (User.account user)) (users_collection w) = None ∧
   users_collection (signup e user w).2
   = users_collection w ++
       [UserDoc.mk (User.name user) (User.account user) (User.phone user)
          (hash_password (User.password user)) (hash_password (User.pin user))
          (now e) true]).
Proof.
  unfold signup. run_body.
  destruct (store_down e UsersFindOne); [by repeat split; try left|].
  destruct (Mongo.find_one _ (users_collection w)) as [u|] eqn:Hfind;
    [by repeat split; try left|].
  destruct (negb _ || negb _); [by repeat split; try left|].
  destruct (store_down e UsersInsertOne); [by repeat split; try left|].
  split; [done|]. split; [done|]. by right.
Qed.

(** The routes that only read leave the world as it was, whatever the store
    does. *)
Lemma read_only_frame (e : Env) (c : api_call) (w : World) :
  read_only c = true → (handle e c w).2 = w.
Proof.
  intros Hread.
  destruct c; try discriminate; clear Hread;
    unfold handle, login, get_all_transactions, get_blacklist, get_user_info,
      get_user_transactions, health_check;
    run_body; try reflexivity; repeat (case_match; simplify_eq/=; try reflexivity).
Qed.

Lemma scored_reasons (txn : Transaction.t) (request : Request.t) (w : World) :
  length (scored txn request w).1 = signals_fired txn request w ∧
  ((scored txn request w).2 = true ↔ (scored txn request w).1 ≠ []).
Proof.
  unfold scored, signals_fired.
  destruct (ip_signal request), (recipient_signal txn w), (behavioral_signal txn w),
    (geo_signal txn w); simpl; (split; [reflexivity|]); split; done.
Qed.

Lemma transaction_doc_consistent (e : Env) (txn : Transaction.t) (parsed : Datetime.t)
    (ip : string) (request : Request.t) (w : World) :
  status_consistent
    (transaction_doc e txn parsed ip (scored txn request w).2 (scored txn request w).1).
Proof.
  split; [|apply scored_reasons].
  unfold transaction_doc. simpl.
  destruct (scored txn request w).2; [left | right]; repeat split; done.
Qed.

Lemma approve_consistent (t : Datetime.t) (d : TxnDoc.t) :
  status_consistent d → status_consistent (approve t d).
Proof.
  intros [_ Hreasons]. split; [|exact Hreasons].
  right. simpl. repeat split. by eexists.
Qed.

Lemma Forall_update_one {A} (P : A → Prop) (p : A → bool) (f : A → A) (l : list A) :
  (∀ x, P x → P (f x)) → Forall P l → Forall P (Mongo.update_one p f l).
Proof.
  intros Hf. induction 1 as [|x l Hx Hl IH]; simpl; [constructor|].
  destruct (p x); constructor; auto.
Qed.

Lemma update_one_ids (transaction_id : string) (t : Datetime.t) (l : list TxnDoc.t) :
  TxnDoc.transaction_id <$> Mongo.update_one (txn_by_id transaction_id) (approve t) l
  = TxnDoc.transaction_id <$> l.
Proof.
  induction l as [|d l IH]; [done|]. cbn [Mongo.update_one].
  destruct (txn_by_id transaction_id d); [done|]. by rewrite !fmap_cons, IH.
Qed.

Lemma handle_users (e : Env) (c : api_call) (w : World) :
  users_collection (handle e c w).2 = users_collection w ∨
  ∃ u,
    Mongo.find_one (user_by_account (UserDoc.account u)) (users_collection w) = None ∧
    users_collection (handle e c w).2 = users_collection w ++ [u].
Proof.
  destruct c as [user|d|p|txn request| | |a|a|];
    try (left; by rewrite read_only_frame).
  - destruct (signup_frame e user w) as (_ & _ & [Hsame|[Hnew Happ]]); [by left|].
    right. eexists. split; [|exact Happ]. exact Hnew.
  - left. apply verify_pin_frame.
  - left. simpl. destruct (check_fraud_frame e txn request w)
      as (answer & col & known & out & -> & _). reflexivity.
Qed.

Lemma handle_blacklist (e : Env) (c : api_call) (w : World) :
  blacklist_collection (handle e c w).2 = blacklist_collection w ∨
  ∃ b,
    BlacklistDoc.type b = "account" ∧
    Mongo.find_one (blacklisted_account (BlacklistDoc.value b))
      (blacklist_collection w) = None ∧
    blacklist_collection (handle e c w).2 = blacklist_collection w ++ [b].
Proof.
  destruct c as [user|d|p|txn request| | |a|a|];
    try (left; by rewrite read_only_frame).
  - left. apply signup_frame.
  - destruct (verify_pin_frame e p w) as (_ & [[_ H]|[(_ & Hnew & Happ)|[H _]]]);
      [by left | | by left].
    right. exists (blocked_entry e p). split; [reflexivity|]. split; [exact Hnew | exact Happ].
  - left. simpl. destruct (check_fraud_frame e txn request w)
      as (answer & col & known & out & -> & _). reflexivity.
Qed.

Lemma handle_collection (e : Env) (c : api_call) (w : World) :
  collection (handle e c w).2 = collection w ∨
  (∃ d, status_consistent d ∧ collection (handle e c w).2 = collection w ++ [d]) ∨
  (∃ transaction_id t,
     collection (handle e c w).2
     = Mongo.update_one (txn_by_id transaction_id) (approve t) (collection w)).
Proof.
  destruct c as [user|d|p|txn request| | |a|a|];
    try (left; by rewrite read_only_frame).
  - left. apply signup_frame.
  - destruct (verify_pin_frame e p w) as (_ & [[H _]|[(H & _)|[_ H]]]);
      [by left | by left |].
    right. right. by eexists _, _.
  - simpl. destruct (check_fraud_frame e txn request w)
      as (answer & col & known & out & -> & [->|(parsed & _ & ->)]); [by left|].
    right. left. eexists. split; [apply transaction_doc_consistent | reflexivity].
Qed.

(** ** Invariants of the stored data *)

(** X1: every stored transaction keeps a consistent status under every
    sequence of calls and every behaviour of the store. *)
Theorem stored_status_stays_consistent (calls : list (Env * api_call)) (w : World) :
  Forall status_consistent (collection w) →
  Forall status_consistent (collection (run calls w)).
Proof.
  revert w. induction calls as [|[e c] calls IH]; intros w Hw; [exact Hw|].
  simpl. apply IH.
  destruct (handle_collection e c w) as [->|[(d & Hd & ->)|(i & t & ->)]].
  - exact Hw.
  - apply Forall_app. split; [exact Hw|]. by constructor.
  - apply Forall_update_one; [apply approve_consistent | exact Hw].
Qed.

Lemma find_none_account (account : string) (us : list UserDoc.t) :
  Mongo.find_one (user_by_account account) us = None →
  account ∉ UserDoc.account <$> us.
Proof.
  unfold Mongo.find_one, user_by_account.
  induction us as [|u us IH]; simpl; [intros _; apply not_elem_of_nil|].
  case_bool_decide as Hu; [discriminate|].
  intros Hnone. apply not_elem_of_cons. split; [congruence | by apply IH].
Qed.

Lemma find_none_key (value : string) (bl : list BlacklistDoc.t) :
  Mongo.find_one (blacklisted_account value) bl = None →
  ("account", value) ∉ blacklist_key <$> bl.
Proof.
  unfold Mongo.find_one, blacklisted_account, blacklist_key.
  induction bl as [|b bl IH]; simpl; [intros _; apply not_elem_of_nil|].
  destruct (bool_decide (BlacklistDoc.type b = "account")) eqn:Ht;
    destruct (bool_decide (BlacklistDoc.value b = value)) eqn:Hv; simpl;
    try discriminate; intros Hnone;
    (apply not_elem_of_cons; split; [|by apply IH]);
    intros [= Ht' Hv'];
    [ apply bool_decide_eq_false in Hv | apply bool_decide_eq_false in Ht
    | apply bool_decide_eq_false in Ht ]; congruence.
Qed.

(** X2: no two stored users share an account and no two blacklist entries
    share a (type, value) key, under every sequence of calls and every
    behaviour of the store. *)
Theorem keys_stay_unique (calls : list (Env * api_call)) (w : World) :
  NoDup (UserDoc.account <$> users_collection w) →
  NoDup (blacklist_key <$> blacklist_collection w) →
  NoDup (UserDoc.account <$> users_collection (run calls w)) ∧
  NoDup (blacklist_key <$> blacklist_collection (run calls w)).
Proof.
  revert w. induction calls as [|[e c] calls IH]; intros w Hus Hbl; [by split|].
  simpl. apply IH.
  - destruct (handle_users e c w) as [->|(u & Hnew & ->)]; [exact Hus|].
    rewrite fmap_app. apply NoDup_app. split; [exact Hus|]. split.
    + intros a Ha Hin. apply list_elem_of_singleton in Hin. subst a.
      by apply find_none_account in Hnew.
    + apply NoDup_singleton.
  - destruct (handle_blacklist e c w) as [->|(b & Htype & Hnew & ->)]; [exact Hbl|].
    rewrite fmap_app. apply NoDup_app. split; [exact Hbl|]. split.
    + intros k Hk Hin. apply list_elem_of_singleton in Hin. subst k.
      apply find_none_key in Hnew. apply Hnew.
      unfold blacklist_key in Hk |- *. simpl in Hk. by rewrite Htype in Hk.
    + apply NoDup_singleton.
Qed.

Lemma run_append_only (calls : list (Env * api_call)) (w : World) :
  users_collection w `prefix_of` users_collection (run calls w) ∧
  blacklist_collection w `prefix_of` blacklist_collection (run calls w) ∧
  (TxnDoc.transaction_id <$> collection w)
    `prefix_of` (TxnDoc.transaction_id <$> collection (run calls w)).
Proof.
  revert w. induction calls as [|[e c] calls IH]; intros w; [done|].
  simpl. destruct (IH (handle e c w).2) as (Hus & Hbl & Hcol).
  split; [|split].
  - etrans; [|exact Hus].
    destruct (handle_users e c w) as [->|(u & _ & ->)]; [done | by apply prefix_app_r].
  - etrans; [|exact Hbl].
    destruct (handle_blacklist e c w) as [->|(b & _ & _ & ->)]; [done | by apply prefix_app_r].
  - etrans; [|exact Hcol].
    destruct (handle_collection e c w) as [->|[(d & _ & ->)|(i & t & ->)]].
    + done.
    + rewrite fmap_app. by apply prefix_app_r.
    + by rewrite update_one_ids.
Qed.

(** X3: nothing is ever deleted: after every sequence of calls the users and
    the blacklist entries of the start are still there, unchanged and in
    place, and so are the identifiers of the stored transactions. *)
Theorem stores_only_grow (calls : list (Env * api_call)) (w : World) :
  users_collection w `prefix_of` users_collection (run calls w) ∧
  blacklist_collection w `prefix_of` blacklist_collection (run calls w) ∧
  (TxnDoc.transaction_id <$> collection w)
    `prefix_of` (TxnDoc.transaction_id <$> collection (run calls w)).
Proof. apply run_append_only. Qed.

(** ** Scoring and challenge, composed *)

Lemma find_prefix {A} (p : A → bool) (l1 l2 : list A) (x : A) :
  l1 `prefix_of` l2 → List.find p l1 = Some x → List.find p l2 = Some x.
Proof.
  intros [k ->]. induction l1 as [|y l1 IH]; simpl; [discriminate|].
  destruct (p y); [done | exact IH].
Qed.

Lemma scored_names_recipient (txn : Transaction.t) (request : Request.t) (w : World) :
  recipient_signal txn w = true →
  (scored txn request w).2 = true ∧
  ("Blacklisted Recipient Account: " +:+ Transaction.recipient_account txn)
    ∈ (scored txn request w).1.
Proof.
  intros Hrec. unfold scored. rewrite Hrec.
  destruct (ip_signal request), (behavioral_signal txn w), (geo_signal txn w); simpl;
    (split; [reflexivity|]); set_solver.
Qed.

(** X4: once a failed PIN challenge has named a recipient, every later
    scoring of a transaction to that recipient is fraud and says so,
    whatever calls happen in between. *)
Theorem blacklisted_recipient_is_flagged (e1 : Env) (pin_data : PinVerification.t)
    (w : World) (user : UserDoc.t) (calls : list (Env * api_call))
    (e2 : Env) (txn : Transaction.t) (request : Request.t) (parsed : Datetime.t) :
  reliable e1 →
  Mongo.find_one (user_by_account (PinVerification.account pin_data))
    (users_collection w) = Some user →
  verify_password (PinVerification.pin pin_data) (UserDoc.pin user) = false →
  reliable e2 →
  strptime (Transaction.timestamp txn) = Some parsed →
  Transaction.recipient_account txn
  = Transaction.recipient_account (PinVerification.transaction pin_data) →
  ∃ reasons,
    (check_fraud e2 txn request (run calls (verify_pin e1 pin_data w).2)).1
    = Verdict true reasons ∧
    ("Blacklisted Recipient Account: " +:+ Transaction.recipient_account txn) ∈ reasons.
Proof.
  intros Hrel1 Huser Hpin Hrel2 Hparse Hrec.
  set (w1 := (verify_pin e1 pin_data w).2).
  assert (is_Some (Mongo.find_one
            (blacklisted_account (Transaction.recipient_account txn))
            (blacklist_collection w1))) as [b Hb].
  { unfold w1. rewrite (verify_pin_mismatch e1 pin_data w user Hrel1 Huser Hpin), Hrec.
    cbn [snd].
    destruct (Mongo.find_one _ (blacklist_collection w)) as [b|] eqn:Hlisted; simpl.
    - rewrite Hlisted. by eexists.
    - apply find_snoc_hit. unfold blacklisted_account, blocked_entry. simpl.
      by rewrite !bool_decide_eq_true_2. }
  assert (recipient_signal txn (run calls w1) = true) as Hsignal.
  { unfold recipient_signal. apply bool_decide_eq_true_2. exists b.
    eapply find_prefix; [|exact Hb]. apply run_append_only. }
  destruct (check_fraud_scored e2 txn request (run calls w1) parsed Hrel2 Hparse)
    as [out ->].
  destruct (scored_names_recipient txn request (run calls w1) Hsignal) as [Hfraud Hin].
  cbn [fst]. rewrite Hfraud. by eexists.
Qed.

Lemma update_one_snoc_new {A} (p : A → bool) (f : A → A) (l : list A) (x : A) :
  List.find p l = None → p x = true →
  Mongo.update_one p f (l ++ [x]) = l ++ [f x].
Proof.
  intros Hnone Hx. induction l as [|y l IH]; simpl in *.
  - by rewrite Hx.
  - destruct (p y); [discriminate|]. by rewrite IH.
Qed.

Lemma update_one_app_old {A} (p : A → bool) (f : A → A) (l k : list A) (y : A) :
  List.find p l = Some y →
  Mongo.update_one p f (l ++ k) = Mongo.update_one p f l ++ k.
Proof.
  induction l as [|x l IH]; simpl; [discriminate|].
  destruct (p x); [done|]. intros Hfind. by rewrite IH.
Qed.

(** X5: a transaction flagged by [check_fraud] under an identifier not
    stored before, then verified with the right PIN, is the stored document
    turned "approved" and PIN-verified, with the verification time; it keeps
    its fraud flag, and the blacklist is as before. *)
Theorem flagged_then_verified (e1 e2 : Env) (txn : Transaction.t) (request : Request.t)
    (w : World) (parsed : Datetime.t) (pin_data : PinVerification.t) (user : UserDoc.t) :
  reliable e1 →
  strptime (Transaction.timestamp txn) = Some parsed →
  (scored txn request w).2 = true →
  Mongo.find_one (txn_by_id (Transaction.transaction_id txn)) (collection w) = None →
  reliable e2 →
  Mongo.find_one (user_by_account (PinVerification.account pin_data))
    (users_collection w) = Some user →
  verify_password (PinVerification.pin pin_data) (UserDoc.pin user) = true →
  Transaction.transaction_id (PinVerification.transaction pin_data)
  = Transaction.transaction_id txn →
  ∃ d,
    collection (verify_pin e2 pin_data (check_fraud e1 txn request w).2).2
    = collection w ++ [d] ∧
    TxnDoc.transaction_id d = Transaction.transaction_id txn ∧
    TxnDoc.status d = "approved" ∧ TxnDoc.pin_verified d = true ∧
    TxnDoc.is_fraud d = true ∧ TxnDoc.verified_at d = Some (now e2) ∧
    blacklist_collection (verify_pin e2 pin_data (check_fraud e1 txn request w).2).2
    = blacklist_collection w.
Proof.
  intros Hrel1 Hparse Hfraud Hfresh Hrel2 Huser Hpin Hid.
  destruct (check_fraud_scored e1 txn request w parsed Hrel1 Hparse) as [out ->].
  cbn [snd]. rewrite Hfraud.
  erewrite verify_pin_match; [|exact Hrel2|exact Huser|exact Hpin].
  cbn [snd]. simpl. rewrite Hid.
  rewrite update_one_snoc_new; [|exact Hfresh|].
  - eexists. split; [reflexivity|]. by repeat split.
  - unfold txn_by_id. simpl. by apply bool_decide_eq_true_2.
Qed.

(** X6: [check_fraud] does not look for the identifier in the store.  When
    an older document already has the identifier of a newly flagged
    transaction, the right PIN approves the older document and the new one
    stays "pending" and unverified. *)
Theorem duplicate_identifier_stays_pending (e1 e2 : Env) (txn : Transaction.t)
    (request : Request.t) (w : World) (parsed : Datetime.t)
    (pin_data : PinVerification.t) (user : UserDoc.t) (older : TxnDoc.t) :
  reliable e1 →
  strptime (Transaction.timestamp txn) = Some parsed →
  (scored txn request w).2 = true →
  Mongo.find_one (txn_by_id (Transaction.transaction_id txn)) (collection w) = Some older →
  reliable e2 →
  Mongo.find_one (user_by_account (PinVerification.account pin_data))
    (users_collection w) = Some user →
  verify_password (PinVerification.pin pin_data) (UserDoc.pin user) = true →
  Transaction.transaction_id (PinVerification.transaction pin_data)
  = Transaction.transaction_id txn →
  ∃ d,
    collection (verify_pin e2 pin_data (check_fraud e1 txn request w).2).2
    = Mongo.update_one (txn_by_id (Transaction.transaction_id txn)) (approve (now e2))
        (collection w) ++ [d] ∧
    TxnDoc.transaction_id d = Transaction.transaction_id txn ∧
    TxnDoc.status d = "pending" ∧ TxnDoc.pin_verified d = false ∧
    Mongo.find_one (txn_by_id (Transaction.transaction_id txn))
      (collection (verify_pin e2 pin_data (check_fraud e1 txn request w).2).2)
    = Some (approve (now e2) older).
Proof.
  intros Hrel1 Hparse Hfraud Hold Hrel2 Huser Hpin Hid.
  destruct (check_fraud_scored e1 txn request w parsed Hrel1 Hparse) as [out ->].
  cbn [snd]. rewrite Hfraud.
  erewrite verify_pin_match; [|exact Hrel2|exact Huser|exact Hpin].
  cbn [snd]. simpl. rewrite Hid.
  rewrite (update_one_app_old _ _ _ _ older Hold).
  eexists. split; [reflexivity|]. repeat split.
  eapply find_prefix; [by apply prefix_app_r|].
  apply update_one_find; [apply approve_keeps_id | exact Hold].
Qed.

(** X7: the answer of a scoring carries one reason for each detector that
    fired, is fraud exactly when it carries a reason, and the stored
    document holds the same flag and the same reasons. *)
Theorem verdict_matches_reasons (e : Env) (txn : Transaction.t) (request : Request.t)
    (w : World) (parsed : Datetime.t) :
  reliable e →
  strptime (Transaction.timestamp txn) = Some parsed →
  ∃ fraud reasons doc,
    (check_fraud e txn request w).1 = Verdict fraud reasons ∧
    length reasons = signals_fired txn request w ∧
    (fraud = true ↔ reasons ≠ []) ∧
    last (collection (check_fraud e txn request w).2) = Some doc ∧
    TxnDoc.is_fraud doc = fraud ∧ TxnDoc.fraud_reason doc = reasons.
Proof.
  intros Hrel Hparse.
  destruct (check_fraud_scored e txn request w parsed Hrel Hparse) as [out ->].
  eexists _, _, _. cbn [fst snd collection].
  split; [reflexivity|]. split; [apply scored_reasons|]. split; [apply scored_reasons|].
  split; [apply last_snoc|]. by split.
Qed.

(** ** The history handed to the behavioural detector *)

Lemma insert_sorted_perm {A} (le : A → A → bool) (d : A) (l : list A) :
  Mongo.insert_sorted le d l ≡ₚ d :: l.
Proof.
  induction l as [|x l IH]; simpl; [done|].
  destruct (le x d); [|done]. rewrite IH. apply Permutation_swap.
Qed.

Lemma sort_from_perm {A} (le : A → A → bool) (docs acc : list A) :
  fold_left (λ acc d, Mongo.insert_sorted le d acc) docs acc ≡ₚ docs ++ acc.
Proof.
  revert acc. induction docs as [|d docs IH]; intros acc; simpl; [done|].
  rewrite IH, insert_sorted_perm. by rewrite Permutation_middle.
Qed.

Lemma sort_perm {A} (le : A → A → bool) (docs : list A) : Mongo.sort le docs ≡ₚ docs.
Proof. unfold Mongo.sort. by rewrite sort_from_perm, app_nil_r. Qed.

Lemma insert_sorted_sorted {A} (le : A → A → bool) (d : A) (l : list A) :
  (∀ x y, le x y = false → le y x = true) →
  Sorted (λ x y, le x y = true) l →
  Sorted (λ x y, le x y = true) (Mongo.insert_sorted le d l).
Proof.
  intros Htotal. induction 1 as [|x l Hl IH Hhd]; simpl.
  - by repeat constructor.
  - destruct (le x d) eqn:Hxd.
    + constructor; [exact IH|].
      destruct Hhd as [|y l Hxy]; simpl; [by constructor|].
      destruct (le y d); by constructor.
    + constructor; [by constructor|]. constructor. by apply Htotal.
Qed.

Lemma sort_sorted {A} (le : A → A → bool) (docs : list A) :
  (∀ x y, le x y = false → le y x = true) →
  Sorted (λ x y, le x y = true) (Mongo.sort le docs).
Proof.
  intros Htotal. unfold Mongo.sort.
  assert (∀ acc, Sorted (λ x y, le x y = true) acc →
            Sorted (λ x y, le x y = true)
              (fold_left (λ acc d, Mongo.insert_sorted le d acc) docs acc)) as Hfold.
  { induction docs as [|d docs IH]; intros acc Hacc; simpl; [exact Hacc|].
    apply IH. by apply insert_sorted_sorted. }
  apply Hfold. constructor.
Qed.

Lemma lex_leb_total (a b : list nat) :
  Datetime.lex_leb a b = false → Datetime.lex_leb b a = true.
Proof.
  revert b. induction a as [|x a IH]; intros [|y b]; simpl; try done.
  destruct (Nat.ltb_spec x y), (Nat.ltb_spec y x), (Nat.eqb_spec x y), (Nat.eqb_spec y x);
    simpl; try done; try lia.
  apply IH.
Qed.

Lemma lex_leb_trans (a b c : list nat) :
  Datetime.lex_leb a b = true → Datetime.lex_leb b c = true → Datetime.lex_leb a c = true.
Proof.
  revert b c. induction a as [|x a IH]; intros [|y b] [|z c]; simpl; try done.
  destruct (Nat.ltb_spec x y), (Nat.ltb_spec y z), (Nat.ltb_spec x z),
    (Nat.eqb_spec x y), (Nat.eqb_spec y z), (Nat.eqb_spec x z);
    simpl; try done; try lia.
  apply IH.
Qed.

(** X8: the history [check_fraud] reads for a card holds exactly the stored
    documents of that card, each as often as it is stored, in ascending
    order of their timestamps. *)
Theorem past_transactions_ordered (card_type : string) (docs : list TxnDoc.t) :
  past_transactions card_type docs ≡ₚ List.filter (txn_by_card card_type) docs ∧
  StronglySorted
    (λ a b, Datetime.leb (TxnDoc.timestamp a) (TxnDoc.timestamp b) = true)
    (past_transactions card_type docs).
Proof.
  unfold past_transactions. split; [apply sort_perm|].
  apply Sorted_StronglySorted.
  - intros a b c. unfold Datetime.leb. apply lex_leb_trans.
  - apply (sort_sorted (λ a b, Datetime.leb (TxnDoc.timestamp a) (TxnDoc.timestamp b))).
    intros a b. unfold Datetime.leb. apply lex_leb_total.
Qed.

Lemma short_window_not_anomalous (past_txns : list TxnDoc.t) (amount : float)
    (window_size : nat) (z_thresh : float) :
  length past_txns < 2 →
  detect_behavioral_anomaly past_txns amount window_size z_thresh = false.
Proof.
  intros Hshort. unfold detect_behavioral_anomaly.
  pose proof (last_slice_length window_size (TxnDoc.amount <$> past_txns)) as Hle.
  rewrite length_fmap in Hle.
  destruct (Nat.ltb_spec (length (Py.last_slice window_size (TxnDoc.amount <$> past_txns))) 2);
    [reflexivity | lia].
Qed.

(** X9: a transaction on a card with fewer than two stored transactions and
    no recorded location, from an address and to a recipient that are not
    denylisted, is answered "not fraud" with no reason, stored as approved,
    and its location becomes the card's last known location. *)
Theorem early_payment_is_approved (e : Env) (txn : Transaction.t) (request : Request.t)
    (w : World) (parsed : Datetime.t) :
  reliable e →
  strptime (Transaction.timestamp txn) = Some parsed →
  ip_signal request = false →
  recipient_signal txn w = false →
  length (List.filter (txn_by_card (Transaction.card_type txn)) (collection w)) < 2 →
  last_known_location w !! Transaction.card_type txn = None →
  ∃ doc,
    (check_fraud e txn request w).1 = Verdict false [] ∧
    last (collection (check_fraud e txn request w).2) = Some doc ∧
    TxnDoc.status doc = "approved" ∧ TxnDoc.pin_verified doc = true ∧
    last_known_location (check_fraud e txn request w).2 !! Transaction.card_type txn
    = Some (Transaction.location txn).
Proof.
  intros Hrel Hparse Hip Hrec Hshort Hknown.
  destruct (check_fraud_scored e txn request w parsed Hrel Hparse) as [out ->].
  assert (behavioral_signal txn w = false) as Hbeh.
  { unfold behavioral_signal. apply short_window_not_anomalous.
    unfold past_transactions. by rewrite sort_perm. }
  assert (geo_signal txn w = false) as Hgeo.
  { unfold geo_signal, detect_geo_drift. rewrite Hknown.
    by destruct (location_lookup !! Transaction.location txn). }
  unfold scored. rewrite Hip, Hrec, Hbeh, Hgeo. cbn [flag fst snd collection].
  eexists. split; [reflexivity|]. split; [apply last_snoc|].
  split; [reflexivity|]. split; [reflexivity|].
  simpl. apply lookup_insert_eq.
Qed.

(** X10: scoring a transaction on one card changes none of the four signals
    of a transaction on another card. *)
Theorem scoring_keeps_other_cards (e : Env) (txn other : Transaction.t)
    (request other_request : Request.t) (w : World) (parsed : Datetime.t) :
  reliable e →
  strptime (Transaction.timestamp txn) = Some parsed →
  Transaction.card_type other ≠ Transaction.card_type txn →
  scored other other_request (check_fraud e txn request w).2
  = scored other other_request w.
Proof.
  intros Hrel Hparse Hcard.
  destruct (check_fraud_scored e txn request w parsed Hrel Hparse) as [out ->].
  cbn [snd].
  set (d := transaction_doc e txn parsed (get_client_ip request)
              (scored txn request w).2 (scored txn request w).1).
  set (known' := if (scored txn request w).2 then last_known_location w
                 else <[Transaction.card_type txn := Transaction.location txn]>
                        (last_known_location w)).
  set (w' := mkWorld (users_collection w) (collection w ++ [d])
               (blacklist_collection w) known' out).
  assert (behavioral_signal other w' = behavioral_signal other w) as Hb.
  { unfold behavioral_signal, past_transactions, w'. cbn [collection].
    rewrite List.filter_app. simpl.
    unfold txn_by_card at 2. unfold d at 1. cbn [transaction_doc TxnDoc.card_type].
    rewrite bool_decide_eq_false_2 by congruence. by rewrite app_nil_r. }
  assert (geo_signal other w' = geo_signal other w) as Hg.
  { unfold geo_signal, detect_geo_drift, w'. cbn [last_known_location].
    assert (known' !! Transaction.card_type other
            = last_known_location w !! Transaction.card_type other) as ->; [|done].
    unfold known'. destruct (scored txn request w).2; [reflexivity|].
    by rewrite lookup_insert_ne. }
  unfold scored. rewrite Hb, Hg. reflexivity.
Qed.

(** X11: only the last [window_size] stored amounts enter the behavioural
    test: older transactions in front of a full window change nothing. *)
Theorem only_the_window_matters (older recent : list TxnDoc.t) (amount : float)
    (window_size : nat) (z_thresh : float) :
  window_size ≠ 0 →
  length recent = window_size →
  detect_behavioral_anomaly (older ++ recent) amount window_size z_thresh
  = detect_behavioral_anomaly recent amount window_size z_thresh.
Proof.
  intros Hpos Hlen. unfold detect_behavioral_anomaly.
  assert (Py.last_slice window_size (TxnDoc.amount <$> older ++ recent)
          = Py.last_slice window_size (TxnDoc.amount <$> recent)) as ->; [|reflexivity].
  unfold Py.last_slice. destruct window_size as [|n]; [done|].
  rewrite fmap_app, length_app, !length_fmap, Hlen.
  replace (length older + S n - S n) with (length (TxnDoc.amount <$> older))
    by (rewrite length_fmap; lia).
  rewrite drop_app_length. by rewrite Nat.sub_diag.
Qed.

(** ** Amounts that are not numbers *)

Lemma nan_class (x : float) : PrimFloat.is_nan x = true → Prim2SF x = S754_nan.
Proof. intros Hnan. unfold Prim2SF. by rewrite Hnan. Qed.

(** X12: an amount that is NaN is never reported as a behavioural anomaly,
    whatever the history and the window size. *)
Theorem nan_amount_not_anomalous (past_txns : list TxnDoc.t) (amount : float)
    (window_size : nat) :
  PrimFloat.is_nan amount = true →
  detect_behavioral_anomaly past_txns amount window_size 2.5 = false.
Proof.
  intros Hnan. unfold detect_behavioral_anomaly.
  destruct (length _ <? 2); [reflexivity|]. cbv zeta.
  destruct (negb _); [|reflexivity].
  rewrite ltb_spec, abs_spec, div_spec, sub_spec, (nan_class amount Hnan).
  reflexivity.
Qed.

(** ** Scoring when the store fails *)

(** [check_fraud] once the timestamp is parsed and the two reads are
    answered: what is left to run. *)
Lemma check_fraud_after_reads (e : Env) (txn : Transaction.t) (request : Request.t)
    (w : World) (parsed : Datetime.t) :
  strptime (Transaction.timestamp txn) = Some parsed →
  store_down e BlacklistFindOne = false →
  store_down e TxnFind = false →
  check_fraud e txn request w
  = no_try
      ((if negb (scored txn request w).2
        then modify (set_last_known_location
                       (<[Transaction.card_type txn := Transaction.location txn]>))
        else mret ()) ;;
       store e TxnInsertOne
         (modify (set_collection
            (Mongo.insert_one
               (transaction_doc e txn parsed (get_client_ip request)
                  (scored txn request w).2 (scored txn request w).1)))) ;;
       (if (scored txn request w).2 then alert_owner e txn request else mret ()) ;;
       mret (Verdict (scored txn request w).2 (scored txn request w).1))
      w.
Proof.
  intros Hparse Hlisted Hfind. unfold check_fraud. rewrite Hparse.
  unfold no_try, mbind, M_bind at 1. unfold mret at 1, M_ret at 1.
  unfold mbind, M_bind at 1. unfold store at 1. rewrite Hlisted. unfold gets at 1.
  unfold mbind, M_bind at 1. unfold store at 1. rewrite Hfind. unfold gets at 1.
  unfold mbind, M_bind at 1. unfold gets at 1.
  reflexivity.
Qed.

(** X13: [check_fraud] writes the last known location before it stores the
    transaction.  When the insert fails for a transaction that is not
    fraud, the caller gets a server error and no transaction is stored, yet
    the card's last known location has moved to the transaction's. *)
Theorem insert_failure_moves_baseline (e : Env) (txn : Transaction.t)
    (request : Request.t) (w : World) (parsed : Datetime.t) :
  strptime (Transaction.timestamp txn) = Some parsed →
  store_down e BlacklistFindOne = false →
  store_down e TxnFind = false →
  store_down e TxnInsertOne = true →
  (scored txn request w).2 = false →
  check_fraud e txn request w
  = (ServerError PyMongoError,
     set_last_known_location
       (<[Transaction.card_type txn := Transaction.location txn]>) w).
Proof.
  intros Hparse Hlisted Hfind Hinsert Hfraud.
  rewrite (check_fraud_after_reads e txn request w parsed Hparse Hlisted Hfind).
  rewrite Hfraud. run_body. cbn [negb]. by rewrite Hinsert.
Qed.

(** X14: the alert of a flagged transaction looks the account up after the
    transaction is stored.  When that lookup fails, the caller gets a server
    error instead of the verdict, and the flagged transaction is stored all
    the same. *)
Theorem alert_failure_hides_verdict (e : Env) (txn : Transaction.t)
    (request : Request.t) (w : World) (parsed : Datetime.t) (auth_header : string) :
  strptime (Transaction.timestamp txn) = Some parsed →
  store_down e BlacklistFindOne = false →
  store_down e TxnFind = false →
  store_down e TxnInsertOne = false →
  store_down e UsersFindOne = true →
  (scored txn request w).2 = true →
  Request.get "authorization" (Request.headers request) = Some auth_header →
  Py.startswith "Bearer " auth_header = true →
  check_fraud e txn request w
  = (ServerError PyMongoError,
     set_collection
       (Mongo.insert_one
          (transaction_doc e txn parsed (get_client_ip request) true
             (scored txn request w).1))
       w).
Proof.
  intros Hparse Hlisted Hfind Hinsert Husers Hfraud Hauth Hbearer.
  rewrite (check_fraud_after_reads e txn request w parsed Hparse Hlisted Hfind).
  rewrite Hfraud. unfold alert_owner. rewrite Hauth.
  change (default EmptyString (Some auth_header)) with auth_header.
  rewrite Hbearer. run_body. cbn [negb]. by rewrite Hinsert, Husers.
Qed.

(** ** Accounts *)

Lemma find_snoc_new {A} (p : A → bool) (l : list A) (x : A) :
  List.find p l = None → p x = true → List.find p (l ++ [x]) = Some x.
Proof.
  intros Hnone Hx. induction l as [|y l IH]; simpl in *.
  - by rewrite Hx.
  - destruct (p y); [discriminate | by apply IH].
Qed.

Lemma signup_success (e : Env) (user : User.t) (w : World) :
  reliable e →
  Mongo.find_one (user_by_account (User.account user)) (users_collection w) = None →
  Py.isdigit (User.pin user) = true →
  String.length (User.pin user) = 4 →
  signup e user w
  = (Envelope true (Some "Account created successfully") NoPayload,
     set_sms_sent
       (λ out, out ++ [Sms.mk (User.phone user) (Sms.Welcome (User.account user))])
       (set_users
          (Mongo.insert_one
             (UserDoc.mk (User.name user) (User.account user) (User.phone user)
                (hash_password (User.password user)) (hash_password (User.pin user))
                (now e) true))
          w)).
Proof.
  intros Hrel Hnew Hdigits Hlen. unfold signup. run_body.
  rewrite !Hrel, Hnew, Hdigits, Hlen. reflexivity.
Qed.

(** X15: after a signup that is accepted, the same account and password log
    in and get the name, account and phone given at signup, and the PIN
    given at signup passes the PIN challenge. *)
Theorem signup_round_trip (e1 e2 : Env) (user : User.t) (w : World)
    (txn : Transaction.t) :
  reliable e1 →
  Mongo.find_one (user_by_account (User.account user)) (users_collection w) = None →
  Py.isdigit (User.pin user) = true →
  String.length (User.pin user) = 4 →
  reliable e2 →
  (login e2 (LoginData.mk (User.account user) (User.password user))
     (signup e1 user w).2).1
  = Envelope true (Some "Login successful")
      (UserInfo (User.name user) (User.account user) (User.phone user)) ∧
  (verify_pin e2 (PinVerification.mk (User.account user) (User.pin user) txn)
     (signup e1 user w).2).1
  = Envelope true (Some "PIN verified successfully. Transaction approved.") NoPayload.
Proof.
  intros Hrel1 Hnew Hdigits Hlen Hrel2.
  rewrite (signup_success e1 user w Hrel1 Hnew Hdigits Hlen). cbn [snd].
  set (doc := UserDoc.mk _ _ _ _ _ _ _).
  assert (Mongo.find_one (user_by_account (User.account user))
            (users_collection w ++ [doc]) = Some doc) as Hfound.
  { apply find_snoc_new; [exact Hnew|]. unfold user_by_account, doc. simpl.
    by apply bool_decide_eq_true_2. }
  split.
  - unfold login. run_body. simpl. rewrite Hrel2. unfold Mongo.insert_one.
    rewrite Hfound. unfold verify_password, doc, hash_password. simpl.
    by rewrite bool_decide_eq_true_2.
  - erewrite verify_pin_match; [reflexivity | exact Hrel2 | exact Hfound |].
    unfold verify_password, doc, hash_password. simpl.
    by apply bool_decide_eq_true_2.
Qed.

(** X16: with the store working, [login] answers "Login successful" exactly
    when the account is stored, the password's digest is the stored one and
    the account is active; the answer then carries that user's name, account
    and phone. *)
Theorem login_succeeds_exactly_when (e : Env) (login_data : LoginData.t) (w : World)
    (info : payload) :
  reliable e →
  (login e login_data w).1 = Envelope true (Some "Login successful") info ↔
  ∃ user,
    Mongo.find_one (user_by_account (LoginData.account login_data))
      (users_collection w) = Some user ∧
    verify_password (LoginData.password login_data) (UserDoc.password user) = true ∧
    UserDoc.is_active user = true ∧
    info = UserInfo (UserDoc.name user) (UserDoc.account user) (UserDoc.phone user).
Proof.
  intros Hrel. unfold login. run_body. rewrite Hrel.
  destruct (Mongo.find_one _ (users_collection w)) as [user|]; simpl.
  - destruct (verify_password _ _) eqn:Hpw; simpl.
    + destruct (UserDoc.is_active user) eqn:Hactive; simpl.
      * split.
        -- intros [= <-]. by exists user.
        -- intros (u & [= <-] & _ & _ & ->). reflexivity.
      * split; [discriminate|]. intros (u & [= <-] & _ & Hact & _). congruence.
    + split; [discriminate|]. intros (u & [= <-] & Hpw' & _). congruence.
  - split; [discriminate|]. intros (u & [=] & _).
Qed.

(** X17: a sequence of calls on the routes that only read ([login], the two
    listings, the two user lookups, the health check) leaves the world as it
    was, whatever the store does. *)
Theorem reading_changes_nothing (calls : list (Env * api_call)) (w : World) :
  Forall (λ call, read_only call.2 = true) calls → run calls w = w.
Proof.
  revert w. induction calls as [|[e c] calls IH]; intros w Hall; [reflexivity|].
  inversion_clear Hall as [|? ? Hc Hrest]. simpl in *.
  rewrite read_only_frame by exact Hc. by apply IH.
Qed.

(** X18: a handler written with [try ... except] that answers "Internal
    server error" has changed nothing. *)
Theorem internal_error_changes_nothing (e : Env) (c : api_call) (w : World) :
  guarded c = true →
  (handle e c w).1 = internal_server_error →
  (handle e c w).2 = w.
Proof.
  intros Hguarded.
  destruct c; try discriminate; clear Hguarded;
    unfold handle, signup, login, verify_pin, get_user_info, get_user_transactions,
      internal_server_error;
    run_body;
    repeat (case_match; simplify_eq/=; try done).
Qed.

(** X19: a signup either answers a failure and changes nothing, or answers
    success and has added exactly one user, whose account was not stored
    before and whose PIN is four digits, holding the digests of the password
    and of the PIN. *)
Theorem signup_all_or_nothing (e : Env) (user : User.t) (w : World) :
  (∃ message data,
     (signup e user w).1 = Envelope false message data ∧ (signup e user w).2 = w) ∨
  ((signup e user w).1 = Envelope true (Some "Account created successfully") NoPayload ∧
   Mongo.find_one (user_by_account (User.account user)) (users_collection w) = None ∧
   Py.isdigit (User.pin user) = true ∧ String.length (User.pin user) = 4 ∧
   users_collection (signup e user w).2
   = users_collection w ++
       [UserDoc.mk (User.name user) (User.account user) (User.phone user)
          (sha256_hexdigest (User.password user)) (sha256_hexdigest (User.pin user))
          (now e) true]).
Proof.
  unfold signup, internal_server_error, hash_password. run_body.
  destruct (store_down e UsersFindOne); [left; by eexists _, _|].
  destruct (Mongo.find_one _ (users_collection w)) as [u|] eqn:Hfind;
    [left; by eexists _, _|].
  destruct (Py.isdigit (User.pin user)) eqn:Hdigits; simpl; [|left; by eexists _, _].
  destruct (Nat.eqb_spec (String.length (User.pin user)) 4) as [Hlen|Hlen]; simpl;
    [|left; by eexists _, _].
  destruct (store_down e UsersInsertOne); [left; by eexists _, _|].
  right. by repeat split.
Qed.

(** X20: [get_user_transactions] answers every stored account with the same
    list: at most fifty stored transactions, of whatever card or recipient,
    and all of them while the store holds no more than fifty. *)
Theorem user_transactions_ignore_the_user (e : Env) (account other : string) (w : World) :
  reliable e →
  is_Some (Mongo.find_one (user_by_account account) (users_collection w)) →
  is_Some (Mongo.find_one (user_by_account other) (users_collection w)) →
  get_user_transactions e account w = get_user_transactions e other w ∧
  ∃ txns,
    (get_user_transactions e account w).1 = Envelope true None (Transactions txns) ∧
    length txns ≤ 50 ∧
    (∀ d, d ∈ txns → d ∈ collection w) ∧
    (length (collection w) ≤ 50 → txns ≡ₚ collection w).
Proof.
  intros Hrel [u Hu] [u' Hu']. unfold get_user_transactions. run_body.
  rewrite !Hrel, Hu, Hu'. split; [reflexivity|].
  eexists. split; [reflexivity|]. split; [|split].
  - rewrite length_take. lia.
  - intros d Hd. apply elem_of_take in Hd as (i & Hd & _).
    apply list_elem_of_lookup_2 in Hd. by rewrite sort_perm in Hd.
  - intros Hfew. rewrite take_ge; [apply sort_perm|].
    by rewrite sort_perm.
Qed.

(** ** The alert of a scoring *)




(** ** The shape of the originating address *)

Lemma has_comma_lstrip (s : string) : has_comma s = false → has_comma (Py.lstrip s) = false.
Proof.
  induction s as [|c s IH]; simpl; [done|].
  intros Hno. apply orb_false_iff in Hno as [Hc Hs].
  destruct (Py.isspace c); [by apply IH|]. simpl. by rewrite Hc, Hs.
Qed.

Lemma has_comma_rstrip (s : string) : has_comma s = false → has_comma (Py.rstrip s) = false.
Proof.
  induction s as [|c s IH]; simpl; [done|].
  intros Hno. apply orb_false_iff in Hno as [Hc Hs].
  specialize (IH Hs). destruct (Py.rstrip s) as [|c' r].
  - destruct (Py.isspace c); simpl; [done|]. by rewrite Hc.
  - simpl in *. by rewrite Hc, IH.
Qed.

Lemma rstrip_keeps_head (c : ascii) (s : string) :
  Py.isspace c = false → Py.rstrip (String c s) = String c (Py.rstrip s).
Proof. intros Hc. simpl. rewrite Hc. by destruct (Py.rstrip s). Qed.

Lemma rstrip_idempotent (s : string) : Py.rstrip (Py.rstrip s) = Py.rstrip s.
Proof.
  induction s as [|c s IH]; [done|]. cbn [Py.rstrip].
  destruct (Py.rstrip s) as [|c' r] eqn:Hr.
  - destruct (Py.isspace c) eqn:Hc; [done|]. simpl. by rewrite Hc.
  - cbn [Py.rstrip]. cbn [Py.rstrip] in IH. by rewrite IH.
Qed.

Lemma lstrip_head (s : string) :
  Py.lstrip s = EmptyString ∨ ∃ c t, Py.lstrip s = String c t ∧ Py.isspace c = false.
Proof.
  induction s as [|c s IH]; simpl; [by left|].
  destruct (Py.isspace c) eqn:Hc; [exact IH|]. right. by exists c, s.
Qed.

Lemma strip_idempotent (s : string) : Py.strip (Py.strip s) = Py.strip s.
Proof.
  unfold Py.strip.
  destruct (lstrip_head s) as [->|(c & t & -> & Hc)]; [done|].
  rewrite (rstrip_keeps_head c t Hc). cbn [Py.lstrip]. rewrite Hc.
  rewrite <- (rstrip_keeps_head c t Hc). apply rstrip_idempotent.
Qed.

(** X22: an address taken from a non-empty [x-forwarded-for] header holds no
    comma and no blank at either end: stripping it again changes nothing. *)
Theorem forwarded_address_is_trimmed (request : Request.t) (forwarded : string) :
  Request.get "x-forwarded-for" (Request.headers request) = Some forwarded →
  forwarded ≠ EmptyString →
  has_comma (get_client_ip request) = false ∧
  Py.strip (get_client_ip request) = get_client_ip request.
Proof.
  intros Hget Hne. unfold get_client_ip. rewrite Hget.
  rewrite bool_decide_eq_false_2 by exact Hne.
  destruct (split_go_head EmptyString forwarded)
    as (entry & rest & _ & Hno & _ & Hhead).
  unfold Py.split. rewrite Hhead. simpl. split.
  - unfold Py.strip. by apply has_comma_rstrip, has_comma_lstrip.
  - apply strip_idempotent.
Qed.

(** X23: every scored transaction joins the history of its card, flagged or
    not: the next scoring on the card reads its amount among the past
    amounts. *)
Theorem scored_transaction_joins_history (e : Env) (txn : Transaction.t)
    (request : Request.t) (w : World) (parsed : Datetime.t) :
  reliable e →
  strptime (Transaction.timestamp txn) = Some parsed →
  ∃ doc,
    TxnDoc.amount doc = Transaction.amount txn ∧
    TxnDoc.is_fraud doc = (scored txn request w).2 ∧
    past_transactions (Transaction.card_type txn)
      (collection (check_fraud e txn request w).2)
    ≡ₚ doc :: past_transactions (Transaction.card_type txn) (collection w).
Proof.
  intros Hrel Hparse.
  destruct (check_fraud_scored e txn request w parsed Hrel Hparse) as [out ->].
  exists (transaction_doc e txn parsed (get_client_ip request)
            (scored txn request w).2 (scored txn request w).1).
  split; [reflexivity|]. split; [reflexivity|].
  unfold past_transactions. rewrite !sort_perm.
  cbn [snd collection]. rewrite List.filter_app. simpl.
  unfold txn_by_card at 2. cbn [transaction_doc TxnDoc.card_type].
  rewrite bool_decide_eq_true_2 by reflexivity.
  by rewrite <- Permutation_cons_append.
Qed.

(** ** Exceptions *)

Ltac none_down H :=
  repeat (apply Exists_cons in H as [H|H]; [congruence|]);
  by apply Exists_nil in H.

Ltac all_up H :=
  repeat (apply Forall_cons in H as [? H]); congruence.

(** A handler written with [try ... except] answers the failure of any call
    on the store that it reaches with "Internal server error", nothing
    written. *)
Lemma guarded_catch_store_errors (e : Env) (c : api_call) (w : World) :
  guarded c = true →
  Exists (λ k, store_down e k = true) (store_calls c w) →
  handle e c w = (internal_server_error, w).
Proof.
  intros Hguarded Hdown.
  destruct c; try discriminate; clear Hguarded; simpl in Hdown;
    unfold handle, signup, login, verify_pin, get_user_info, get_user_transactions;
    run_body;
    repeat (case_match; simplify_eq/=; try reflexivity);
    none_down Hdown.
Qed.

(** A handler without [try] lets the failure of any call on the store that
    it reaches out to the framework. *)
Lemma unguarded_pass_store_errors (e : Env) (c : api_call) (w : World) :
  guarded c = false →
  Exists (λ k, store_down e k = true) (store_calls c w) →
  (handle e c w).1 = ServerError PyMongoError.
Proof.
  intros Hguarded Hdown.
  destruct c as [| | |txn request| | | | |]; try discriminate; clear Hguarded;
    simpl in Hdown.
  - destruct (strptime (Transaction.timestamp txn)) as [parsed|] eqn:Hparse;
      [|by apply Exists_nil in Hdown].
    destruct (store_down e BlacklistFindOne) eqn:Hlisted.
    { simpl. unfold check_fraud. rewrite Hparse. run_body. by rewrite Hlisted. }
    destruct (store_down e TxnFind) eqn:Hfind.
    { simpl. unfold check_fraud. rewrite Hparse. run_body. by rewrite Hlisted, Hfind. }
    simpl. rewrite (check_fraud_after_reads e txn request w parsed Hparse Hlisted Hfind).
    destruct (scored txn request w) as [reasons is_fraud]. cbn [fst snd] in *.
    unfold alert_owner.
    destruct is_fraud; cbn [negb andb] in *; run_body;
      destruct (store_down e TxnInsertOne) eqn:Hinsert; try reflexivity.
    + destruct (Py.startswith _ _) eqn:Hbearer.
      * destruct (store_down e UsersFindOne) eqn:Husers; [reflexivity|].
        none_down Hdown.
      * none_down Hdown.
    + none_down Hdown.
  - unfold handle, get_all_transactions. run_body.
    destruct (store_down e TxnFind) eqn:Hfind; [reflexivity | none_down Hdown].
  - unfold handle, get_blacklist. run_body.
    destruct (store_down e BlacklistFind) eqn:Hfind; [reflexivity | none_down Hdown].
  - by apply Exists_nil in Hdown.
Qed.

(** When every call on the store that a route reaches is answered, the
    route does what it does with a store that answers every call. *)
Lemma answered_calls_as_reliable (e : Env) (c : api_call) (w : World) :
  Forall (λ k, store_down e k = false) (store_calls c w) →
  handle e c w = handle (calm (now e)) c w.
Proof.
  intros Hup.
  destruct c as [user|d|p|txn request| | |a|a|]; simpl in Hup.
  - unfold handle, signup. run_body. simpl.
    repeat (case_match; simplify_eq/=; try reflexivity); all_up Hup.
  - unfold handle, login. run_body. simpl.
    repeat (case_match; simplify_eq/=; try reflexivity); all_up Hup.
  - unfold handle, verify_pin. run_body. simpl.
    repeat (case_match; simplify_eq/=; try reflexivity); all_up Hup.
  - simpl.
    destruct (strptime (Transaction.timestamp txn)) as [parsed|] eqn:Hparse;
      [|unfold check_fraud; by rewrite Hparse].
    apply Forall_cons in Hup as [Hlisted Hup].
    apply Forall_cons in Hup as [Hfind Hup].
    apply Forall_cons in Hup as [Hinsert Hup].
    rewrite (check_fraud_after_reads e txn request w parsed Hparse Hlisted Hfind).
    rewrite (check_fraud_after_reads (calm (now e)) txn request w parsed Hparse
               eq_refl eq_refl).
    destruct (scored txn request w) as [reasons is_fraud]. cbn [fst snd] in *.
    unfold alert_owner.
    destruct is_fraud; cbn [negb andb] in *; run_body; simpl; rewrite Hinsert.
    + destruct (Py.startswith _ _) eqn:Hbearer; [|reflexivity].
      apply Forall_cons in Hup as [Husers _]. by rewrite Husers.
    + reflexivity.
  - unfold handle, get_all_transactions. run_body. simpl.
    repeat (case_match; simplify_eq/=; try reflexivity); all_up Hup.
  - unfold handle, get_blacklist. run_body. simpl.
    repeat (case_match; simplify_eq/=; try reflexivity); all_up Hup.
  - unfold handle, get_user_info. run_body. simpl.
    repeat (case_match; simplify_eq/=; try reflexivity); all_up Hup.
  - unfold handle, get_user_transactions. run_body. simpl.
    repeat (case_match; simplify_eq/=; try reflexivity); all_up Hup.
  - reflexivity.
Qed.

(** C8: the handlers written with [try ... except] keep the promise of the
    claim: every answer of theirs is a success/failure envelope, and the
    failure of any store call they reach is answered "Internal server
    error" with nothing written.  [check_fraud] has no [try]: the
    [ValueError] of a timestamp that does not parse leaves the handler
    before anything is read or written, and so does the failure of any
    store call it reaches, as in the two listing routes.  A route whose
    calls are all answered does what it does with a working store. *)
Theorem check_fraud_lets_exceptions_escape :
  (∀ e txn request w,
     strptime (Transaction.timestamp txn) = None →
     check_fraud e txn request w = (ServerError ValueError, w)) ∧
  (∀ e c w,
     guarded c = true →
     ∃ success message data,
       (handle e c w).1 = Envelope success message data ∧
       (success = false → is_Some message)) ∧
  (∀ e c w,
     guarded c = true →
     Exists (λ k, store_down e k = true) (store_calls c w) →
     handle e c w = (internal_server_error, w)) ∧
  (∀ e c w,
     guarded c = false →
     Exists (λ k, store_down e k = true) (store_calls c w) →
     (handle e c w).1 = ServerError PyMongoError) ∧
  (∀ e c w,
     Forall (λ k, store_down e k = false) (store_calls c w) →
     handle e c w = handle (calm (now e)) c w).
Proof.
  split; [|split; [|split; [|split]]].
  - intros e txn request w Hparse. unfold check_fraud. by rewrite Hparse.
  - apply guarded_answers_are_envelopes.
  - apply guarded_catch_store_errors.
  - apply unguarded_pass_store_errors.
  - apply answered_calls_as_reliable.
Qed.

End Service.

(** ** The properties at concrete requests *)

Lemma behavioral_needs_two_samples_witness :
  length [Scenario.paid "t-1" 7.1] < 2 ∧
  detect_behavioral_anomaly [Scenario.paid "t-1" 7.1] 1e9 5 2.5 = false.
Proof.
  split; [simpl; lia|].
  apply (behavioral_needs_two_samples [Scenario.paid "t-1" 7.1] 1e9 5 2.5).
  simpl; lia.
Defined.

Lemma behavioral_zero_deviation_witness :
  PrimFloat.eqb (Np.std (Py.last_slice 5 (TxnDoc.amount <$> Scenario.five_equal))) 0 = true ∧
  Np.mean (Py.last_slice 5 (TxnDoc.amount <$> Scenario.five_equal)) = 100%float ∧
  detect_behavioral_anomaly Scenario.five_equal 1e9 5 2.5 = false.
Proof.
  split; [vm_compute; reflexivity|]. split; [vm_compute; reflexivity|].
  destruct (behavioral_zero_deviation Scenario.five_equal 1e9) as [_ Hsame].
  apply (Hsame 100%float).
  - repeat constructor.
  - vm_compute; reflexivity.
  - vm_compute; reflexivity.
Defined.

(** C4: a window of identical amounts should never be flagged, and the guard
    [std != 0] is there for it, but the guard compares a rounded [np.std]
    with zero exactly.  Three identical amounts of 7.1, or a full window of
    five identical amounts of 0.11, have a rounded mean that is not the
    amount and a computed deviation that is not zero, so a payment of 7.2,
    or of 0.12, is reported anomalous and [check_fraud] answers fraud. *)
Lemma identical_window_flagged :
  Py.last_slice 5 (TxnDoc.amount <$> Scenario.three_equal) = [7.1; 7.1; 7.1]%float ∧
  PrimFloat.eqb (Np.std [7.1; 7.1; 7.1]%float) 0 = false ∧
  detect_behavioral_anomaly Scenario.three_equal 7.2 5 2.5 = true ∧
  (check_fraud Demo.strptime Demo.flat_km (calm Scenario.t0) (Scenario.payment 7.2)
     Scenario.direct Scenario.world_three_equal).1
  = Verdict true ["Abnormal Amount (Behavioral)"] ∧
  Py.last_slice 5 (TxnDoc.amount <$> Scenario.five_small)
  = [0.11; 0.11; 0.11; 0.11; 0.11]%float ∧
  PrimFloat.eqb (Np.std [0.11; 0.11; 0.11; 0.11; 0.11]%float) 0 = false ∧
  detect_behavioral_anomaly Scenario.five_small 0.12 5 2.5 = true ∧
  (check_fraud Demo.strptime Demo.flat_km (calm Scenario.t0) (Scenario.payment 0.12)
     Scenario.direct Scenario.world_five_small).1
  = Verdict true ["Abnormal Amount (Behavioral)"].
Proof. repeat split; vm_compute; reflexivity. Qed.

Lemma geo_drift_cases_witness :
  detect_geo_drift Demo.flat_km {[ "visa" := "Chennai" ]} "visa" "Mumbai" 500
  = PrimFloat.ltb 500 (Demo.flat_km (13.0827, 80.2707)%float (19.0760, 72.8777)%float) ∧
  detect_geo_drift Demo.flat_km {[ "visa" := "Chennai" ]} "visa" "Pune" 500 = false.
Proof.
  split.
  - destruct (geo_drift_cases Demo.flat_km {[ "visa" := "Chennai" ]} "visa" "Mumbai")
      as (_ & _ & _ & Hboth).
    apply (Hboth "Chennai"); vm_compute; reflexivity.
  - destruct (geo_drift_cases Demo.flat_km {[ "visa" := "Chennai" ]} "visa" "Pune")
      as (Hunknown & _).
    apply Hunknown. vm_compute; reflexivity.
Defined.

Lemma check_fraud_policy_witness :
  reliable (calm Scenario.t0) ∧
  Demo.strptime (Transaction.timestamp (Scenario.payment 7.2))
  = Some (Datetime.mk 2025 8 7 16 55 0 0) ∧
  ∃ fraud reasons doc,
    (check_fraud Demo.strptime Demo.flat_km (calm Scenario.t0) (Scenario.payment 7.2)
       Scenario.direct Scenario.world_three_equal).1 = Verdict fraud reasons ∧
    collection
      (check_fraud Demo.strptime Demo.flat_km (calm Scenario.t0) (Scenario.payment 7.2)
         Scenario.direct Scenario.world_three_equal).2
    = Scenario.three_equal ++ [doc] ∧
    TxnDoc.is_fraud doc = fraud.
Proof.
  split; [intros c; reflexivity|]. split; [reflexivity|].
  destruct (check_fraud_policy Demo.strptime Demo.flat_km (calm Scenario.t0)
              (Scenario.payment 7.2) Scenario.direct Scenario.world_three_equal
              (Datetime.mk 2025 8 7 16 55 0 0))
    as (fraud & reasons & doc & Hanswer & _ & Hstored & _ & Hflag & _).
  - intros c; reflexivity.
  - reflexivity.
  - exists fraud, reasons, doc. split; [exact Hanswer|]. split; [exact Hstored | exact Hflag].
Defined.


Lemma verify_pin_success_unchecked_witness :
  Mongo.find_one (txn_by_id "t-100") (collection Scenario.world) = None ∧
  (verify_pin Demo.digest (calm Scenario.t0) (Scenario.challenge "bob" "1234")
     Scenario.world).1
  = Envelope true (Some "PIN verified successfully. Transaction approved.") NoPayload ∧
  collection
    (verify_pin Demo.digest (calm Scenario.t0) (Scenario.challenge "bob" "1234")
       Scenario.world).2
  = collection Scenario.world.
Proof.
  split; [reflexivity|].
  destruct (verify_pin_success_unchecked Demo.digest (calm Scenario.t0)
              (Scenario.challenge "bob" "1234") Scenario.world Scenario.bob)
    as (Hanswer & Hkept).
  - intros c; reflexivity.
  - vm_compute; reflexivity.
  - vm_compute; reflexivity.
  - split; [exact Hanswer|]. apply Hkept. reflexivity.
Defined.



(** Two triggers on the same recipient: one entry, holding one reason. *)
Lemma second_trigger_adds_no_reason :
  BlacklistDoc.reason <$>
    blacklist_collection
      (run Demo.digest Demo.strptime Demo.flat_km Scenario.two_failures Scenario.world)
  = [[invalid_pin_reason]].
Proof. vm_compute; reflexivity. Qed.

Lemma blacklist_entry_is_single_witness :
  length (List.filter (blacklisted_account "acct-9")
            (blacklist_collection
               (run Demo.digest Demo.strptime Demo.flat_km Scenario.two_failures
                  Scenario.world))) = 1.
Proof.
  apply (blacklist_entry_is_single Demo.digest Demo.strptime Demo.flat_km
           Scenario.world "acct-9" Scenario.two_failures).
  - discriminate.
  - apply Forall_cons_2; [|apply Forall_cons_2; [|apply Forall_nil_2]];
      (split; [intros c; reflexivity|]).
    + exists (Scenario.challenge "alice" "0000"), Scenario.alice.
      repeat split; vm_compute; reflexivity.
    + exists (Scenario.challenge "bob" "9999"), Scenario.bob.
      repeat split; vm_compute; reflexivity.
  - simpl; lia.
Defined.

(** [check_fraud] answers a well-formed request with a verdict, not an
    envelope, and lets the [ValueError] of an unparsable timestamp through. *)
Lemma check_fraud_answers_no_envelope :
  (check_fraud Demo.strptime Demo.flat_km (calm Scenario.t0) (Scenario.payment 7.2)
     Scenario.direct Scenario.world).1 = Verdict false [] ∧
  Demo.strptime "yesterday" = None ∧
  (check_fraud Demo.strptime Demo.flat_km (calm Scenario.t0) (Scenario.undated 7.2)
     Scenario.direct Scenario.world).1 = ServerError ValueError.
Proof. repeat split; vm_compute; reflexivity. Qed.

Lemma check_fraud_lets_exceptions_escape_witness :
  Demo.strptime (Transaction.timestamp (Scenario.undated 7.2)) = None ∧
  check_fraud Demo.strptime Demo.flat_km (calm Scenario.t0) (Scenario.undated 7.2)
    Scenario.direct Scenario.world
  = (ServerError ValueError, Scenario.world) ∧
  handle Demo.digest Demo.strptime Demo.flat_km
    (mkEnv Scenario.t0 (λ k, match k with TxnUpdateOne => true | _ => false end))
    (VerifyPin (Scenario.challenge "bob" "1234")) Scenario.world_flagged
  = (internal_server_error, Scenario.world_flagged).
Proof.
  destruct (check_fraud_lets_exceptions_escape Demo.digest Demo.strptime Demo.flat_km)
    as (Hescape & _ & Hcaught & _).
  split; [reflexivity|]. split.
  - apply Hescape. reflexivity.
  - apply Hcaught; [reflexivity|].
    vm_compute. apply Exists_cons_tl, Exists_cons_hd. reflexivity.
Defined.

(** An empty [x-forwarded-for] header is present, yet the address is the
    socket peer; blanks around the first entry are not part of the address. *)
Lemma empty_forwarded_header_ignored :
  get_client_ip (Request.mk [("x-forwarded-for", EmptyString)] "10.0.0.7") = "10.0.0.7" ∧
  first_forwarded_entry (Request.mk [("x-forwarded-for", EmptyString)] "10.0.0.7") = EmptyString ∧
  get_client_ip (Request.mk [("x-forwarded-for", " 203.0.113.5 , 10.0.0.1")] "10.0.0.7")
  = "203.0.113.5" ∧
  first_forwarded_entry (Request.mk [("x-forwarded-for", " 203.0.113.5 , 10.0.0.1")] "10.0.0.7")
  = " 203.0.113.5 ".
Proof. repeat split; vm_compute; reflexivity. Qed.

Lemma client_ip_source_witness :
  get_client_ip (Request.mk [("x-forwarded-for", "203.0.113.5")] "10.0.0.7")
  = "203.0.113.5".
Proof.
  destruct (client_ip_source Demo.strptime Demo.flat_km) as (_ & _ & _ & _ & Hchosen).
  apply (Hchosen [] "10.0.0.7" "203.0.113.5"); [discriminate | reflexivity | reflexivity].
Defined.

(** ** The end-to-end examples of the specification *)

(** An amount equal to five prior amounts, a location outside the table,
    nothing blacklisted: not fraud, stored as approved. *)
Example steady_payment_approved :
  (check_fraud Demo.strptime Demo.flat_km (calm Scenario.t0)
     (Transaction.mk "t-6" "2025-08-07 16:55:00" 100 "Pune" "visa" "INR" "acct-9")
     Scenario.direct (mkWorld [] Scenario.five_equal [] ∅ [])).1 = Verdict false [] ∧
  TxnDoc.status <$>
    last (collection
      (check_fraud Demo.strptime Demo.flat_km (calm Scenario.t0)
         (Transaction.mk "t-6" "2025-08-07 16:55:00" 100 "Pune" "visa" "INR" "acct-9")
         Scenario.direct (mkWorld [] Scenario.five_equal [] ∅ [])).2)
  = Some "approved".
Proof. split; vm_compute; reflexivity. Qed.

(** A request from a denylisted address: fraud with the one reason, stored
    as pending, and the last known location is not written. *)
Example denylisted_address_pending :
  (check_fraud Demo.strptime Demo.flat_km (calm Scenario.t0) (Scenario.payment 7.2)
     (Request.mk [("x-forwarded-for", "203.0.113.5")] "10.0.0.7") Scenario.world).1
  = Verdict true ["Blacklisted IP Address: 203.0.113.5"] ∧
  TxnDoc.status <$>
    last (collection
      (check_fraud Demo.strptime Demo.flat_km (calm Scenario.t0) (Scenario.payment 7.2)
         (Request.mk [("x-forwarded-for", "203.0.113.5")] "10.0.0.7") Scenario.world).2)
  = Some "pending" ∧
  last_known_location
    (check_fraud Demo.strptime Demo.flat_km (calm Scenario.t0) (Scenario.payment 7.2)
       (Request.mk [("x-forwarded-for", "203.0.113.5")] "10.0.0.7") Scenario.world).2
  !! "visa" = None.
Proof. repeat split; vm_compute; reflexivity. Qed.

(** ** The further properties at concrete requests *)

Lemma stored_status_stays_consistent_witness :
  Forall status_consistent
    (collection (run Demo.digest Demo.strptime Demo.flat_km Scenario.busy_day
                   Scenario.world)).
Proof.
  apply (stored_status_stays_consistent Demo.digest Demo.strptime Demo.flat_km
           Scenario.busy_day Scenario.world).
  apply Forall_nil_2.
Defined.

Lemma keys_stay_unique_witness :
  NoDup (UserDoc.account <$>
           users_collection (run Demo.digest Demo.strptime Demo.flat_km
                               (Scenario.two_failures ++ Scenario.busy_day)
                               Scenario.world)) ∧
  NoDup (blacklist_key <$>
           blacklist_collection (run Demo.digest Demo.strptime Demo.flat_km
                                   (Scenario.two_failures ++ Scenario.busy_day)
                                   Scenario.world)) ∧
  length (users_collection (run Demo.digest Demo.strptime Demo.flat_km
                              (Scenario.two_failures ++ Scenario.busy_day)
                              Scenario.world)) = 3 ∧
  length (blacklist_collection (run Demo.digest Demo.strptime Demo.flat_km
                                  (Scenario.two_failures ++ Scenario.busy_day)
                                  Scenario.world)) = 1.
Proof.
  destruct (keys_stay_unique Demo.digest Demo.strptime Demo.flat_km
              (Scenario.two_failures ++ Scenario.busy_day) Scenario.world)
    as [Husers Hkeys].
  - apply NoDup_cons_2; [|apply NoDup_singleton].
    intros Hin. apply list_elem_of_singleton in Hin. discriminate.
  - apply NoDup_nil_2.
  - split; [exact Husers|]. split; [exact Hkeys|]. split; vm_compute; reflexivity.
Defined.

Lemma blacklisted_recipient_is_flagged_witness :
  ∃ reasons,
    (check_fraud Demo.strptime Demo.flat_km (calm Scenario.t0) (Scenario.payment 7.2)
       Scenario.direct
       (run Demo.digest Demo.strptime Demo.flat_km Scenario.reads
          (verify_pin Demo.digest (calm Scenario.t0) (Scenario.challenge "bob" "9999")
             Scenario.world).2)).1
    = Verdict true reasons ∧
    "Blacklisted Recipient Account: acct-9" ∈ reasons.
Proof.
  apply (blacklisted_recipient_is_flagged Demo.digest Demo.strptime Demo.flat_km
           (calm Scenario.t0) (Scenario.challenge "bob" "9999") Scenario.world
           Scenario.bob Scenario.reads (calm Scenario.t0) (Scenario.payment 7.2)
           Scenario.direct (Datetime.mk 2025 8 7 16 55 0 0)).
  - intros c; reflexivity.
  - vm_compute; reflexivity.
  - vm_compute; reflexivity.
  - intros c; reflexivity.
  - reflexivity.
  - reflexivity.
Defined.

Lemma flagged_then_verified_witness :
  TxnDoc.status <$>
    last (collection
      (verify_pin Demo.digest (calm Scenario.t0) (Scenario.challenge "bob" "1234")
         (check_fraud Demo.strptime Demo.flat_km (calm Scenario.t0)
            (Scenario.payment 7.2) Scenario.direct Scenario.world_three_equal).2).2)
  = Some "approved".
Proof.
  destruct (flagged_then_verified Demo.digest Demo.strptime Demo.flat_km
              (calm Scenario.t0) (calm Scenario.t0) (Scenario.payment 7.2)
              Scenario.direct Scenario.world_three_equal
              (Datetime.mk 2025 8 7 16 55 0 0) (Scenario.challenge "bob" "1234")
              Scenario.bob)
    as (d & Hstored & _ & Hstatus & _).
  - intros c; reflexivity.
  - reflexivity.
  - vm_compute; reflexivity.
  - vm_compute; reflexivity.
  - intros c; reflexivity.
  - vm_compute; reflexivity.
  - vm_compute; reflexivity.
  - reflexivity.
  - rewrite Hstored, last_snoc. simpl. by rewrite Hstatus.
Defined.

Lemma duplicate_identifier_stays_pending_witness :
  TxnDoc.status <$>
    last (collection
      (verify_pin Demo.digest (calm Scenario.t0) (Scenario.challenge "bob" "1234")
         (check_fraud Demo.strptime Demo.flat_km (calm Scenario.t0)
            (Scenario.payment 7.2) Scenario.spoofed Scenario.world_flagged).2).2)
  = Some "pending".
Proof.
  destruct (duplicate_identifier_stays_pending Demo.digest Demo.strptime Demo.flat_km
              (calm Scenario.t0) (calm Scenario.t0) (Scenario.payment 7.2)
              Scenario.spoofed Scenario.world_flagged
              (Datetime.mk 2025 8 7 16 55 0 0) (Scenario.challenge "bob" "1234")
              Scenario.bob Scenario.flagged)
    as (d & Hstored & _ & Hstatus & _).
  - intros c; reflexivity.
  - reflexivity.
  - vm_compute; reflexivity.
  - vm_compute; reflexivity.
  - intros c; reflexivity.
  - vm_compute; reflexivity.
  - vm_compute; reflexivity.
  - reflexivity.
  - rewrite Hstored, last_snoc. simpl. by rewrite Hstatus.
Defined.

Lemma verdict_matches_reasons_witness :
  ∃ fraud reasons,
    (check_fraud Demo.strptime Demo.flat_km (calm Scenario.t0) (Scenario.payment 7.2)
       Scenario.spoofed Scenario.world_three_equal).1 = Verdict fraud reasons ∧
    length reasons
    = signals_fired Demo.flat_km (Scenario.payment 7.2) Scenario.spoofed
        Scenario.world_three_equal.
Proof.
  destruct (verdict_matches_reasons Demo.strptime Demo.flat_km (calm Scenario.t0)
              (Scenario.payment 7.2) Scenario.spoofed Scenario.world_three_equal
              (Datetime.mk 2025 8 7 16 55 0 0))
    as (fraud & reasons & doc & Hanswer & Hcount & _).
  - intros c; reflexivity.
  - reflexivity.
  - by exists fraud, reasons.
Defined.

Lemma early_payment_is_approved_witness :
  (check_fraud Demo.strptime Demo.flat_km (calm Scenario.t0) (Scenario.payment 7.2)
     Scenario.direct Scenario.world).1 = Verdict false [].
Proof.
  destruct (early_payment_is_approved Demo.strptime Demo.flat_km (calm Scenario.t0)
              (Scenario.payment 7.2) Scenario.direct Scenario.world
              (Datetime.mk 2025 8 7 16 55 0 0))
    as (doc & Hanswer & _).
  - intros c; reflexivity.
  - reflexivity.
  - vm_compute; reflexivity.
  - vm_compute; reflexivity.
  - simpl; lia.
  - vm_compute; reflexivity.
  - exact Hanswer.
Defined.

Lemma scoring_keeps_other_cards_witness :
  scored Demo.flat_km Scenario.other_card Scenario.direct
    (check_fraud Demo.strptime Demo.flat_km (calm Scenario.t0) (Scenario.payment 7.2)
       Scenario.direct Scenario.world).2
  = scored Demo.flat_km Scenario.other_card Scenario.direct Scenario.world.
Proof.
  apply (scoring_keeps_other_cards Demo.strptime Demo.flat_km (calm Scenario.t0)
           (Scenario.payment 7.2) Scenario.other_card Scenario.direct Scenario.direct
           Scenario.world (Datetime.mk 2025 8 7 16 55 0 0)).
  - intros c; reflexivity.
  - reflexivity.
  - discriminate.
Defined.

Lemma only_the_window_matters_witness :
  detect_behavioral_anomaly (Scenario.three_equal ++ Scenario.five_equal) 1e9 5 2.5
  = detect_behavioral_anomaly Scenario.five_equal 1e9 5 2.5.
Proof.
  apply (only_the_window_matters Scenario.three_equal Scenario.five_equal 1e9 5 2.5).
  - discriminate.
  - reflexivity.
Defined.

Lemma nan_amount_not_anomalous_witness :
  PrimFloat.is_nan PrimFloat.nan = true ∧
  detect_behavioral_anomaly Scenario.three_equal PrimFloat.nan 5 2.5 = false.
Proof.
  split; [reflexivity|].
  apply (nan_amount_not_anomalous Scenario.three_equal PrimFloat.nan 5). reflexivity.
Defined.

Lemma insert_failure_moves_baseline_witness :
  check_fraud Demo.strptime Demo.flat_km Scenario.insert_off (Scenario.payment 7.2)
    Scenario.direct Scenario.world
  = (ServerError PyMongoError,
     set_last_known_location (<["visa" := "Chennai"]>) Scenario.world).
Proof.
  apply (insert_failure_moves_baseline Demo.strptime Demo.flat_km Scenario.insert_off
           (Scenario.payment 7.2) Scenario.direct Scenario.world
           (Datetime.mk 2025 8 7 16 55 0 0)).
  - reflexivity.
  - reflexivity.
  - reflexivity.
  - reflexivity.
  - vm_compute; reflexivity.
Defined.

Lemma alert_failure_hides_verdict_witness :
  (check_fraud Demo.strptime Demo.flat_km Scenario.users_off (Scenario.payment 7.2)
     Scenario.spoofed Scenario.world).1 = ServerError PyMongoError ∧
  length (collection
    (check_fraud Demo.strptime Demo.flat_km Scenario.users_off (Scenario.payment 7.2)
       Scenario.spoofed Scenario.world).2) = 1.
Proof.
  rewrite (alert_failure_hides_verdict Demo.strptime Demo.flat_km Scenario.users_off
             (Scenario.payment 7.2) Scenario.spoofed Scenario.world
             (Datetime.mk 2025 8 7 16 55 0 0) "Bearer bob").
  - split; reflexivity.
  - reflexivity.
  - reflexivity.
  - reflexivity.
  - reflexivity.
  - reflexivity.
  - vm_compute; reflexivity.
  - reflexivity.
  - reflexivity.
Defined.

Lemma signup_round_trip_witness :
  (login Demo.digest (calm Scenario.t0) (LoginData.mk "carol" "s3cret")
     (signup Demo.digest (calm Scenario.t0) Scenario.carol Scenario.world).2).1
  = Envelope true (Some "Login successful") (UserInfo "Carol" "carol" "+913333333333") ∧
  (verify_pin Demo.digest (calm Scenario.t0)
     (PinVerification.mk "carol" "2468" (Scenario.payment 7.2))
     (signup Demo.digest (calm Scenario.t0) Scenario.carol Scenario.world).2).1
  = Envelope true (Some "PIN verified successfully. Transaction approved.") NoPayload.
Proof.
  apply (signup_round_trip Demo.digest (calm Scenario.t0) (calm Scenario.t0)
           Scenario.carol Scenario.world (Scenario.payment 7.2)).
  - intros c; reflexivity.
  - vm_compute; reflexivity.
  - reflexivity.
  - reflexivity.
  - intros c; reflexivity.
Defined.

Lemma login_succeeds_exactly_when_witness :
  (login Demo.digest (calm Scenario.t0) (LoginData.mk "bob" "builder") Scenario.world).1
  = Envelope true (Some "Login successful") (UserInfo "Bob" "bob" "+912222222222").
Proof.
  apply (proj2 (login_succeeds_exactly_when Demo.digest (calm Scenario.t0)
                  (LoginData.mk "bob" "builder") Scenario.world
                  (UserInfo "Bob" "bob" "+912222222222") (λ c, eq_refl))).
  exists Scenario.bob. repeat split; vm_compute; reflexivity.
Defined.

Lemma reading_changes_nothing_witness :
  run Demo.digest Demo.strptime Demo.flat_km Scenario.reads Scenario.world_flagged
  = Scenario.world_flagged.
Proof.
  apply (reading_changes_nothing Demo.digest Demo.strptime Demo.flat_km
           Scenario.reads Scenario.world_flagged).
  repeat (apply Forall_cons_2; [reflexivity|]). apply Forall_nil_2.
Defined.

Lemma internal_error_changes_nothing_witness :
  (handle Demo.digest Demo.strptime Demo.flat_km Scenario.store_off
     (Signup Scenario.carol) Scenario.world).2 = Scenario.world.
Proof.
  apply (internal_error_changes_nothing Demo.digest Demo.strptime Demo.flat_km
           Scenario.store_off (Signup Scenario.carol) Scenario.world).
  - reflexivity.
  - vm_compute; reflexivity.
Defined.

Lemma user_transactions_ignore_the_user_witness :
  get_user_transactions (calm Scenario.t0) "alice" Scenario.world_flagged
  = get_user_transactions (calm Scenario.t0) "bob" Scenario.world_flagged.
Proof.
  destruct (user_transactions_ignore_the_user (calm Scenario.t0) "alice" "bob"
              Scenario.world_flagged) as [Hsame _].
  - intros c; reflexivity.
  - exists Scenario.alice. vm_compute; reflexivity.
  - exists Scenario.bob. vm_compute; reflexivity.
  - exact Hsame.
Defined.

Lemma forwarded_address_is_trimmed_witness :
  has_comma (get_client_ip Scenario.spoofed) = false ∧
  Py.strip (get_client_ip Scenario.spoofed) = get_client_ip Scenario.spoofed.
Proof.
  apply (forwarded_address_is_trimmed Scenario.spoofed "203.0.113.5").
  - reflexivity.
  - discriminate.
Defined.

Lemma scored_transaction_joins_history_witness :
  length (past_transactions "visa"
    (collection
       (check_fraud Demo.strptime Demo.flat_km (calm Scenario.t0) (Scenario.payment 7.2)
          Scenario.direct Scenario.world_three_equal).2)) = 4.
Proof.
  destruct (scored_transaction_joins_history Demo.strptime Demo.flat_km
              (calm Scenario.t0) (Scenario.payment 7.2) Scenario.direct
              Scenario.world_three_equal (Datetime.mk 2025 8 7 16 55 0 0))
    as (doc & _ & _ & Hperm).
  - intros c; reflexivity.
  - reflexivity.
  - change (Transaction.card_type (Scenario.payment 7.2)) with "visa" in Hperm.
    rewrite Hperm. reflexivity.
Defined.
